(** * Inventory service: record collection, photo directory and handlers

    A shallow embedding of [src/main.js]: the in-memory [inventory] array,
    the photo directory written by the upload middleware, the snapshot file
    [inventory.json], and the request handlers of the Express routes.

    Conventions of the embedding.
    - A JavaScript string is a [string] whose characters are code units
      below 256.  [req.body] is an object; a field of it is a JSON value or
      [undefined].
    - The photo directory is a finite map from file name to file content;
      the snapshot file is an optional text.  Reading an absent file
      throws; no other input or output failure is modelled.
    - A handler is a function from the state before the request to the
      response and the state after it; requests are handled one at a time.
      The un-awaited [fs.promises.unlink(..).catch(() => {})] is taken at
      the point of the call: removing a name that is absent is the
      swallowed failure.
    - [Number] and [String] on ids are modelled on the decimal numerals up
      to [2^53], where doubles are exact.
    - [JSON.stringify] and [JSON.parse] belong to the runtime; the
      development is parametric in them. *)

From Stdlib Require Import ZArith String Ascii List Bool Lia DecimalString DecimalN.
From stdpp Require Import base option list gmap strings.

Set Warnings "-register-all".

Local Open Scope Z_scope.
Local Open Scope string_scope.

(** ** The fragment of JavaScript the handlers rely on *)

Module JS.

(** Values that a parsed request body or a parsed snapshot can hold. *)
Inductive json :=
| JNull
| JBool (b : bool)
| JNum (z : Z)
| JStr (s : string)
| JArr (elements : list json)
| JObj (fields : list (string * json)).

(** ToBoolean on a value that may be [undefined] ([None]). *)
Definition truthy (v : option json) : bool :=
  match v with
  | None => false
  | Some JNull => false
  | Some (JBool b) => b
  | Some (JNum z) => negb (z =? 0)%Z
  | Some (JStr s) => negb (String.eqb s "")
  | Some (JArr _) | Some (JObj _) => true
  end.

(** ToBoolean on a string-or-null field such as [photoFilename]. *)
Definition truthy_name (f : option string) : bool :=
  match f with
  | Some s => negb (String.eqb s "")
  | None => false
  end.

(** A call either returns or throws. *)
Inductive outcome (A : Type) :=
| Return (a : A)
| Throw (error : string).
Arguments Return {A} a.
Arguments Throw {A} error.

(** Sequencing of calls that may throw, and [try { body } catch { handler }]
    around an expression. *)
Definition bind {A B : Type} (call : outcome A) (rest : A -> outcome B) : outcome B :=
  match call with
  | Return a => rest a
  | Throw e => Throw e
  end.

Definition try_catch {A : Type} (body : outcome A) (handler : A) : A :=
  match body with
  | Return a => a
  | Throw _ => handler
  end.

(** White space and line terminators among the code units below 256:
    TAB, LF, VT, FF, CR, SP and NBSP. *)
Definition is_space (c : ascii) : bool :=
  let n := N_of_ascii c in
  ((9 <=? n) && (n <=? 13) || (n =? 32) || (n =? 160))%N.

Fixpoint trimStart (s : string) : string :=
  match s with
  | EmptyString => EmptyString
  | String c rest => if is_space c then trimStart rest else s
  end.

Fixpoint trimEnd (s : string) : string :=
  match s with
  | EmptyString => EmptyString
  | String c rest =>
      match trimEnd rest with
      | EmptyString => if is_space c then EmptyString else String c EmptyString
      | kept => String c kept
      end
  end.

(** [String.prototype.trim]. *)
Definition trim (s : string) : string := trimEnd (trimStart s).

(** [v.trim()] for a value [v] that is not [undefined] or [null]: only a
    string has the method. *)
Definition call_trim (v : json) : outcome string :=
  match v with
  | JStr s => Return (trim s)
  | _ => Throw "TypeError: inventory_name.trim is not a function"
  end.

(** Every character is white space (the empty string included). *)
Fixpoint blank (s : string) : bool :=
  match s with
  | EmptyString => true
  | String c rest => is_space c && blank rest
  end.

(** Integers up to [2^53] are exact doubles; the numeric functions below
    are defined on that range and return [None] outside it. *)
Definition MAX_EXACT : Z := 2 ^ 53.

(** [Number(s)] for a string: the empty string is [0], a string of
    decimal digits is its value.  Other strings (signs, fractions,
    exponents, other radices, surrounding blanks, non-numerals) and values
    above [MAX_EXACT] are outside the modelled range: [None]. *)
Definition Number (s : string) : option Z :=
  match s with
  | EmptyString => Some 0
  | _ =>
      d ← NilZero.uint_of_string s;
      let n := Z.of_N (N.of_uint d) in
      if (n <=? MAX_EXACT)%Z then Some n else None
  end.

(** [Math.max(0, ...ns)]. *)
Definition Math_max0 (ns : list Z) : Z := foldr Z.max 0 ns.

(** [String(n)] for an integer [n] of the exact range. *)
Definition String (n : Z) : string :=
  if (n <? 0)%Z
  then "-" ++ NilZero.string_of_uint (N.to_uint (Z.to_N (- n)))
  else NilZero.string_of_uint (N.to_uint (Z.to_N n)).

End JS.

Abbreviation json := JS.json.
Abbreviation JNull := JS.JNull.
Abbreviation JBool := JS.JBool.
Abbreviation JNum := JS.JNum.
Abbreviation JStr := JS.JStr.
Abbreviation JArr := JS.JArr.
Abbreviation JObj := JS.JObj.

(** ** Data *)

Definition bytes := list Byte.byte.

(** An element of the [inventory] array, as [POST /register] builds it. *)
Record item := {
  id : string;
  inventory_name : json;
  description : json;
  photoFilename : option string;   (* null is [None] *)
}.

(** The state the handlers read and write: the [inventory] variable, the
    files of [PHOTOS_DIR] by name, and the content of [DB_FILE] if it
    exists. *)
Record state := {
  inventory : list item;
  photos : gmap string bytes;
  db_file : option string;
}.

(** What a handler reads from [req].  [photo_part] is the content of the
    multipart file field [photo] when the request has one; [multer_name] is
    the file name the upload middleware draws for it. *)
Record request := {
  params_id : string;
  body_inventory_name : option json;   (* undefined is [None] *)
  body_description : option json;
  photo_part : option bytes;
  multer_name : string;
  protocol : string;
  host : string;
}.

(** The item view sent to clients. *)
Record dto_view := {
  dto_id : string;
  dto_inventory_name : json;
  dto_description : json;
  photo_url : option string;
}.

Inductive res_body :=
| json_error (error : string)
| json_item (view : dto_view)
| json_list (views : list dto_view)
| json_message (message : string)
| json_photo_updated (item_id : string) (url : option string) (message : string)
| send_text (text : string)
| send_file (content_type : string) (data : bytes).

Record response := {
  status : Z;
  payload : res_body;
}.

(** ** Routes *)

(** The route a request path matches: [/register], [/inventory],
    [/inventory/:id], [/inventory/:id/photo], or none of them (the path
    [/docs] of the documentation pages is left out). *)
Inductive route :=
| route_register
| route_inventory
| route_item
| route_photo
| no_route.

(** [guard(methods)]: [methods.includes(req.method)]. *)
Definition guard (methods : list string) (method : string) : bool :=
  existsb (String.eqb method) methods.

(** The methods each route lists in its guard. *)
Definition allowed_methods (r : route) : list string :=
  match r with
  | route_register => ["POST"]
  | route_inventory => ["GET"]
  | route_item => ["GET"; "PUT"; "DELETE"]
  | route_photo => ["GET"; "PUT"]
  | no_route => []
  end.

(** A request as the application receives it. *)
Record call := {
  call_method : string;
  call_route : route;
  call_req : request;
}.

(** ** Data for the closed examples *)

Definition dquote : string := String (ascii_of_nat 34) EmptyString.
Definition newline : string := String (ascii_of_nat 10) EmptyString.

Definition flat_value (v : json) : string :=
  match v with
  | JNull => "null"
  | JBool b => if b then "true" else "false"
  | JNum z => JS.String z
  | JStr s => dquote ++ s ++ dquote
  | JArr _ => "[]"
  | JObj _ => "{}"
  end.

Definition flat_member (key text : string) : string :=
  "    " ++ dquote ++ key ++ dquote ++ ": " ++ text.

Definition flat_item (i : item) : string :=
  "  {" ++ newline
  ++ flat_member "id" (dquote ++ id i ++ dquote) ++ "," ++ newline
  ++ flat_member "inventory_name" (flat_value (inventory_name i)) ++ "," ++ newline
  ++ flat_member "description" (flat_value (description i)) ++ "," ++ newline
  ++ flat_member "photoFilename"
       (match photoFilename i with
        | Some name => dquote ++ name ++ dquote
        | None => "null"
        end) ++ newline
  ++ "  }".

(** A serializer to run the handlers with: the two-space layout of
    [JSON.stringify(inventory, null, 2)] on records whose fields are flat
    values without characters that need escaping. *)
Definition stringify_flat (inv : list item) : string :=
  match inv with
  | [] => "[]"
  | _ => "[" ++ newline ++ String.concat ("," ++ newline) (map flat_item inv)
         ++ newline ++ "]"
  end.

(** A parser to run [loadInventory] with: it reads the text of the empty
    array and rejects every other text. *)
Definition parse_empty_array (text : string) : JS.outcome json :=
  if String.eqb text "[]" then JS.Return (JArr [])
  else JS.Throw "SyntaxError".

Definition st_empty : state :=
  {| inventory := []; photos := ∅; db_file := None |}.

(** A request from [http://localhost:3000]. *)
Definition mk_request (k : string) (name descr : option json)
    (photo : option bytes) (drawn : string) : request :=
  {| params_id := k;
     body_inventory_name := name;
     body_description := descr;
     photo_part := photo;
     multer_name := drawn;
     protocol := "http";
     host := "localhost:3000" |}.

Definition jpeg_head : bytes := [Byte.xff; Byte.xd8; Byte.xff; Byte.xe0].
Definition png_head : bytes := [Byte.x89; Byte.x50; Byte.x4e; Byte.x47].

Definition widget : item :=
  {| id := "1"; inventory_name := JStr "Widget"; description := JStr "";
     photoFilename := None |}.

Definition gadget : item :=
  {| id := "2"; inventory_name := JStr "Gadget"; description := JStr "with photo";
     photoFilename := Some "a3f1" |}.

(** Two records, the second with a stored photo. *)
Definition st_two : state :=
  {| inventory := [widget; gadget];
     photos := {[ "a3f1" := jpeg_head ]};
     db_file := Some (stringify_flat [widget; gadget]) |}.

(** Requests of the examples. *)
Definition req_widget : request :=
  mk_request "" (Some (JStr "Widget")) None None "".

Definition req_gadget : request :=
  mk_request "" (Some (JStr "Gadget")) (Some (JStr "with photo"))
             (Some jpeg_head) "a3f1".

Definition req_blank_with_photo : request :=
  mk_request "" (Some (JStr "   ")) None (Some jpeg_head) "beef".

Definition req_id (k : string) : request :=
  mk_request k None None None "".

Definition req_describe : request :=
  mk_request "2" None (Some (JStr "x")) None "".

Definition req_blank_update : request :=
  mk_request "2" (Some (JStr "")) None None "".

Definition req_replace : request :=
  mk_request "2" None None (Some png_head) "c0de".

Definition req_replace_unknown : request :=
  mk_request "7" None None (Some png_head) "c0de".

(** The second record's stored photo holds PNG bytes. *)
Definition st_png : state :=
  {| inventory := [widget; gadget];
     photos := {[ "a3f1" := png_head ]};
     db_file := Some (stringify_flat [widget; gadget]) |}.

(** A registration whose name is the number 5. *)
Definition req_number_name : request :=
  mk_request "" (Some (JNum 5)) None None "".


(** ** The program *)

Section Server.

(** The runtime's [JSON.stringify(inventory, null, 2)], and [JSON.parse],
    which throws on a text that is not JSON. *)
Variable JSON_stringify : list item -> string.
Variable JSON_parse : string -> JS.outcome json.

(** *** Start-up *)

(** [fs.readFileSync(DB_FILE, 'utf8')] on a disk where the file has the
    given content, or is absent. *)
Definition readFileSync (db : option string) : JS.outcome string :=
  match db with
  | Some text => JS.Return text
  | None => JS.Throw "ENOENT: no such file or directory"
  end.

(** [loadInventory]: the parsed snapshot, and the empty array when reading
    or parsing throws. *)
Definition loadInventory (db : option string) : json :=
  JS.try_catch (JS.bind (readFileSync db) JSON_parse) (JArr []).

(** Reading a parsed snapshot as the array of records the handlers work on:
    [obj.key] on the parsed object, and the four fields of a record. *)
Fixpoint field (key : string) (fields : list (string * json)) : option json :=
  match fields with
  | [] => None
  | (k, v) :: rest =>
      match field key rest with      (* the last duplicate of a key wins *)
      | Some later => Some later
      | None => if String.eqb k key then Some v else None
      end
  end.

Definition item_of_json (v : json) : option item :=
  match v with
  | JObj fields =>
      match field "id" fields, field "inventory_name" fields,
            field "description" fields, field "photoFilename" fields with
      | Some (JStr i), Some n, Some d, Some (JStr f) =>
          Some {| id := i; inventory_name := n; description := d;
                  photoFilename := Some f |}
      | Some (JStr i), Some n, Some d, Some JNull =>
          Some {| id := i; inventory_name := n; description := d;
                  photoFilename := None |}
      | _, _, _, _ => None
      end
  | _ => None
  end.

Definition inventory_of_json (v : json) : option (list item) :=
  match v with
  | JArr elements => mapM item_of_json elements
  | _ => None
  end.

(** [let inventory = loadInventory()] on a disk with the given snapshot
    file and photo directory.  [None]: the snapshot parsed to something
    that is not an array of records. *)
Definition start (db : option string) (dir : gmap string bytes) : option state :=
  inv ← inventory_of_json (loadInventory db);
  Some {| inventory := inv; photos := dir; db_file := db |}.

(** *** Helpers *)

Definition saveInventory (st : state) : state :=
  {| inventory := inventory st;
     photos := photos st;
     db_file := Some (JSON_stringify (inventory st)) |}.

(** [genId]; [None] when an id or the sum leaves the exact range. *)
Definition genId (inv : list item) : option string :=
  ns ← mapM (fun i => JS.Number (id i)) inv;
  let next := JS.Math_max0 ns + 1 in
  if (next <=? JS.MAX_EXACT)%Z then Some (JS.String next) else None.

(** [upload.single('photo')] with [dest: PHOTOS_DIR]: when the request has
    the file part, its content is written under the drawn name before the
    handler runs, and [req.file.filename] is that name. *)
Definition upload_single (req : request) (st : state) : option string * state :=
  match photo_part req with
  | Some data =>
      (Some (multer_name req),
       {| inventory := inventory st;
          photos := <[multer_name req := data]> (photos st);
          db_file := db_file st |})
  | None => (None, st)
  end.

(** [inventory.find((i) => i.id === id)]: the first element with that id,
    together with its position, which stands for the object's identity
    when a handler assigns to its fields. *)
Definition findItem (inv : list item) (k : string) : option (nat * item) :=
  list_find (fun i => id i = k) inv.

(** [fs.promises.unlink(path.join(PHOTOS_DIR, name)).catch(() => {})]. *)
Definition unlink (name : string) (st : state) : state :=
  {| inventory := inventory st;
     photos := delete name (photos st);
     db_file := db_file st |}.

(** [if (x.photoFilename) { fs.promises.unlink(..x.photoFilename..).catch(..) }],
    the block that [DELETE /inventory/:id] and [PUT /inventory/:id/photo]
    share. *)
Definition unlink_if_set (f : option string) (st : state) : state :=
  match f with
  | Some name => if JS.truthy_name f then unlink name st else st
  | None => st
  end.
Arguments unlink_if_set : simpl never.

Definition photoUrl (req : request) (i : item) : option string :=
  if JS.truthy_name (photoFilename i)
  then Some (protocol req ++ "://" ++ host req ++ "/inventory/" ++ id i ++ "/photo")
  else None.

Definition dto (req : request) (i : item) : dto_view :=
  {| dto_id := id i;
     dto_inventory_name := inventory_name i;
     dto_description := description i;
     photo_url := photoUrl req i |}.

Definition respond (code : Z) (body : res_body) : response :=
  {| status := code; payload := body |}.

(** [res.type(ext)]: the content type of a file extension. *)
Definition res_type (ext : string) : string :=
  if String.eqb ext "jpg" then "image/jpeg"
  else if String.eqb ext "png" then "image/png"
  else "application/octet-stream".

(** *** Handlers *)

(** [!inventory_name || !inventory_name.trim()]. *)
Definition name_missing (v : option json) : JS.outcome bool :=
  match v with
  | Some w =>
      if negb (JS.truthy v) then JS.Return true
      else JS.bind (JS.call_trim w)
             (fun t => JS.Return (negb (JS.truthy (Some (JStr t)))))
  | None => JS.Return true
  end.

(** [POST /register], after [upload.single('photo')]. *)
Definition post_register (req : request) (st0 : state) : option (response * state) :=
  let '(file, st) := upload_single req st0 in
  let description := default (JStr "") (body_description req) in
  match body_inventory_name req, name_missing (body_inventory_name req) with
  | Some inventory_name, JS.Return false =>
      new_id ← genId (inventory st);
      let i := {| id := new_id;
                  inventory_name := inventory_name;
                  description := description;
                  photoFilename := file |} in
      let st := saveInventory {| inventory := (inventory st ++ [i])%list;
                                 photos := photos st;
                                 db_file := db_file st |} in
      Some (respond 201 (json_item (dto req i)), st)
  | _, JS.Return _ =>
      Some (respond 400 (json_error "inventory_name is required"), st)
  | _, JS.Throw e =>
      Some (respond 500 (send_text e), st)
  end.

(** [GET /inventory]. *)
Definition get_inventory (req : request) (st : state) : response * state :=
  (respond 200 (json_list (map (dto req) (inventory st))), st).

(** [GET /inventory/:id]. *)
Definition get_item (req : request) (st : state) : response * state :=
  match findItem (inventory st) (params_id req) with
  | None => (respond 404 (json_error "Not found"), st)
  | Some (_, i) => (respond 200 (json_item (dto req i)), st)
  end.

(** The two conditional assignments of [PUT /inventory/:id]. *)
Definition patch (req : request) (i : item) : item :=
  let i := match body_inventory_name req with
           | Some v => {| id := id i; inventory_name := v;
                          description := description i;
                          photoFilename := photoFilename i |}
           | None => i
           end in
  match body_description req with
  | Some v => {| id := id i; inventory_name := inventory_name i;
                 description := v; photoFilename := photoFilename i |}
  | None => i
  end.

(** [PUT /inventory/:id]. *)
Definition put_item (req : request) (st : state) : response * state :=
  match findItem (inventory st) (params_id req) with
  | None => (respond 404 (json_error "Not found"), st)
  | Some (pos, i) =>
      let i := patch req i in
      let st := saveInventory {| inventory := <[pos := i]> (inventory st);
                                 photos := photos st;
                                 db_file := db_file st |} in
      (respond 200 (json_item (dto req i)), st)
  end.

(** [DELETE /inventory/:id]: [findIndex], [splice(index, 1)], the unlink of
    the removed record's file, then the snapshot. *)
Definition delete_item (req : request) (st : state) : response * state :=
  match findItem (inventory st) (params_id req) with
  | None => (respond 404 (json_error "Not found"), st)
  | Some (index, removed) =>
      let st := {| inventory := delete index (inventory st);
                   photos := photos st;
                   db_file := db_file st |} in
      let st := unlink_if_set (photoFilename removed) st in
      (respond 200 (json_message "Deleted"), saveInventory st)
  end.

(** [GET /inventory/:id/photo]. *)
Definition get_photo (req : request) (st : state) : response * state :=
  match findItem (inventory st) (params_id req) with
  | None => (respond 404 (send_text "Not found"), st)
  | Some (_, i) =>
      match photoFilename i with
      | Some name =>
          if JS.truthy_name (Some name) then
            match photos st !! name with
            | Some data => (respond 200 (send_file (res_type "jpg") data), st)
            | None => (respond 404 (send_text "Not found"), st)
            end
          else (respond 404 (send_text "Not found"), st)
      | None => (respond 404 (send_text "Not found"), st)
      end
  end.

(** The handler of [PUT /inventory/:id/photo], given [req.file]. *)
Definition put_photo_handler (req : request) (file : option string) (st : state)
  : response * state :=
  match findItem (inventory st) (params_id req) with
  | None => (respond 404 (json_error "Not found"), st)
  | Some (pos, i) =>
      match file with
      | None => (respond 400 (json_error "photo file is required"), st)
      | Some filename =>
          let st := unlink_if_set (photoFilename i) st in
          let i := {| id := id i; inventory_name := inventory_name i;
                      description := description i;
                      photoFilename := Some filename |} in
          let st := saveInventory {| inventory := <[pos := i]> (inventory st);
                                     photos := photos st;
                                     db_file := db_file st |} in
          (respond 200 (json_photo_updated (id i) (photoUrl req i) "Photo updated"), st)
      end
  end.

(** [PUT /inventory/:id/photo]: the upload middleware, then the handler. *)
Definition put_photo (req : request) (st0 : state) : response * state :=
  let '(file, st) := upload_single req st0 in
  put_photo_handler req file st.


(** *** Runs and properties of states *)

(** A run of [POST /register] requests, one after the other. *)
Fixpoint register_all (reqs : list request) (st : state)
  : option (list response * state) :=
  match reqs with
  | [] => Some ([], st)
  | req :: rest =>
      '(res, st1) ← post_register req st;
      '(ress, st2) ← register_all rest st1;
      Some (res :: ress, st2)
  end.

(** The id in the body of a response that carries an item view. *)
Definition assigned_id (res : response) : option string :=
  match payload res with
  | json_item view => Some (dto_id view)
  | _ => None
  end.

(** The request passes the name check of [POST /register]. *)
Definition valid_name (req : request) : Prop :=
  exists s, body_inventory_name req = Some (JStr s) /\ JS.blank s = false.

(** The record [POST /register] builds for an accepted request. *)
Definition registered (req : request) (new_id : string) : item :=
  {| id := new_id;
     inventory_name := default JNull (body_inventory_name req);
     description := default (JStr "") (body_description req);
     photoFilename := match photo_part req with
                      | Some _ => Some (multer_name req)
                      | None => None
                      end |}.

(** Ids: pairwise distinct; numerals of the exact range, with values
    [ns]; both, as in every collection the handlers build. *)
Definition ids_unique (inv : list item) : Prop := NoDup (map id inv).

Definition ids_numeric (inv : list item) (ns : list Z) : Prop :=
  mapM (fun i => JS.Number (id i)) inv = Some ns.

Definition ids_wellformed (inv : list item) : Prop :=
  ids_unique inv /\ Forall (fun i => is_Some (JS.Number (id i))) inv.

(** Every photo reference names a stored file. *)
Definition refs_resolve (st : state) : Prop :=
  forall i name, i ∈ inventory st -> photoFilename i = Some name ->
    is_Some (photos st !! name).

(** Every stored file is the photo of some record. *)
Definition no_orphans (st : state) : Prop :=
  forall name, is_Some (photos st !! name) ->
    exists i, i ∈ inventory st /\ photoFilename i = Some name.

Definition no_orphan_invariant (st : state) : Prop :=
  refs_resolve st /\ no_orphans st.

(** No two records share a file, and no reference is the empty name. *)
Definition refs_distinct (st : state) : Prop :=
  NoDup (omap photoFilename (inventory st)).

Definition refs_truthy (st : state) : Prop :=
  forall i, i ∈ inventory st -> photoFilename i <> Some "".

(** The references are sound: distinct non-empty names of stored files. *)
Definition refs_sound (st : state) : Prop :=
  refs_resolve st /\ refs_distinct st /\ refs_truthy st.

(** Records and photo directory agree: the references are sound and every
    stored file is referenced. *)
Definition consistent (st : state) : Prop :=
  no_orphan_invariant st /\ refs_distinct st /\ refs_truthy st.

(** The same two properties, on the list of references of a collection and
    the directory. *)
Definition refs (inv : list item) : list string := omap photoFilename inv.

Definition resolved (R : list string) (P : gmap string bytes) : Prop :=
  (forall r, r ∈ R -> is_Some (P !! r)) /\ NoDup R /\ "" ∉ R.

Definition covered (R : list string) (P : gmap string bytes) : Prop :=
  forall r, is_Some (P !! r) -> r ∈ R.

(** The name the upload middleware draws is not empty and new to the
    state: no stored file has it and no record refers to it. *)
Definition fresh_name (req : request) (st : state) : Prop :=
  multer_name req <> ""
  /\ photos st !! multer_name req = None
  /\ forall i, i ∈ inventory st -> photoFilename i <> Some (multer_name req).

(** The same, asked only of a request that has a photo part. *)
Definition upload_fresh (req : request) (st : state) : Prop :=
  match photo_part req with
  | Some _ => fresh_name req st
  | None => True
  end.


(** *** The application *)

Definition method_not_allowed (st : state) : response * state :=
  (respond 405 (send_text "Method not allowed"), st).

(** The last middleware, [(req, res) => res.status(404).send('Not found')],
    which a request reaches when no route answers it. *)
Definition fallthrough (st : state) : response * state :=
  (respond 404 (send_text "Not found"), st).

(** The application on a request of the given method whose path matches
    the given route: [.all(guard([..]))] first, then the handlers
    registered for the method, the upload middleware included. *)
Definition handle (method : string) (r : route) (req : request) (st : state)
  : option (response * state) :=
  match r with
  | route_register =>
      if guard ["POST"] method then
        if String.eqb method "POST" then post_register req st
        else Some (fallthrough st)
      else Some (method_not_allowed st)
  | route_inventory =>
      if guard ["GET"] method then
        if String.eqb method "GET" then Some (get_inventory req st)
        else Some (fallthrough st)
      else Some (method_not_allowed st)
  | route_item =>
      if guard ["GET"; "PUT"; "DELETE"] method then
        if String.eqb method "GET" then Some (get_item req st)
        else if String.eqb method "PUT" then Some (put_item req st)
        else if String.eqb method "DELETE" then Some (delete_item req st)
        else Some (fallthrough st)
      else Some (method_not_allowed st)
  | route_photo =>
      if guard ["GET"; "PUT"] method then
        if String.eqb method "GET" then Some (get_photo req st)
        else if String.eqb method "PUT" then Some (put_photo req st)
        else Some (fallthrough st)
      else Some (method_not_allowed st)
  | no_route => Some (fallthrough st)
  end.



(** A state as the handlers build it: unique numeral ids, sound photo
    references. *)
Definition wellformed (st : state) : Prop :=
  ids_wellformed (inventory st) /\ refs_sound st.

(** The snapshot file holds the collection. *)
Definition synced (st : state) : Prop :=
  db_file st = Some (JSON_stringify (inventory st)).

(** The request was answered with a success status. *)
Definition accepted (res : response) : Prop :=
  status res = 200 \/ status res = 201.

(** Which handler, if any, answers a request: the cases of [handle]. *)
Inductive answered (method : string) (r : route) (req : request) (st : state)
  : response * state -> Prop :=
| answered_405 :
    r <> no_route -> guard (allowed_methods r) method = false ->
    answered method r req st (method_not_allowed st)
| answered_no_route :
    r = no_route -> answered method r req st (fallthrough st)
| answered_register out :
    r = route_register -> method = "POST" -> post_register req st = Some out ->
    answered method r req st out
| answered_list :
    r = route_inventory -> method = "GET" ->
    answered method r req st (get_inventory req st)
| answered_get :
    r = route_item -> method = "GET" ->
    answered method r req st (get_item req st)
| answered_put :
    r = route_item -> method = "PUT" ->
    answered method r req st (put_item req st)
| answered_delete :
    r = route_item -> method = "DELETE" ->
    answered method r req st (delete_item req st)
| answered_get_photo :
    r = route_photo -> method = "GET" ->
    answered method r req st (get_photo req st)
| answered_put_photo :
    r = route_photo -> method = "PUT" ->
    answered method r req st (put_photo req st).

(** What a request can do to the state: nothing; leave the file of its
    photo part; append a record; assign to the name and description of the
    record it addresses; remove that record and its file; give that record
    a new file in place of the old one. *)
Inductive effect (req : request) (st : state) : state -> Prop :=
| effect_none :
    effect req st st
| effect_upload data :
    photo_part req = Some data ->
    effect req st
      {| inventory := inventory st;
         photos := <[multer_name req := data]> (photos st);
         db_file := db_file st |}
| effect_append new_id :
    genId (inventory st) = Some new_id ->
    effect req st
      {| inventory := (inventory st ++ [registered req new_id])%list;
         photos := photos (snd (upload_single req st));
         db_file := Some (JSON_stringify
                            (inventory st ++ [registered req new_id])%list) |}
| effect_patch pos i :
    findItem (inventory st) (params_id req) = Some (pos, i) ->
    effect req st
      {| inventory := <[pos := patch req i]> (inventory st);
         photos := photos st;
         db_file := Some (JSON_stringify (<[pos := patch req i]> (inventory st))) |}
| effect_delete pos i :
    findItem (inventory st) (params_id req) = Some (pos, i) ->
    effect req st
      {| inventory := delete pos (inventory st);
         photos := photos (unlink_if_set (photoFilename i) st);
         db_file := Some (JSON_stringify (delete pos (inventory st))) |}
| effect_photo pos i data :
    findItem (inventory st) (params_id req) = Some (pos, i) ->
    photo_part req = Some data ->
    let i' := {| id := id i; inventory_name := inventory_name i;
                 description := description i;
                 photoFilename := Some (multer_name req) |} in
    effect req st
      {| inventory := <[pos := i']> (inventory st);
         photos := photos (unlink_if_set (photoFilename i)
                     {| inventory := inventory st;
                        photos := <[multer_name req := data]> (photos st);
                        db_file := db_file st |});
         db_file := Some (JSON_stringify (<[pos := i']> (inventory st))) |}.

(** The two reads of the record with id [k] answer in [st'] what they
    answer in [st]. *)
Definition same_answers (st st' : state) (k : string) : Prop :=
  forall req', params_id req' = k ->
    fst (get_item req' st') = fst (get_item req' st)
    /\ fst (get_photo req' st') = fst (get_photo req' st).


(** ** Facts about the JavaScript fragment *)

Lemma trimStart_blank s : JS.blank s = true -> JS.trimStart s = "".
Proof.
  induction s as [|c s IH]; simpl; [done|].
  intros [Hc Hs]%andb_true_iff. rewrite Hc. auto.
Qed.

Lemma trimStart_head s c rest :
  JS.trimStart s = String c rest -> JS.is_space c = false.
Proof.
  induction s as [|a s IH]; simpl; [done|].
  destruct (JS.is_space a) eqn:Ha; [auto|].
  intros [= -> ->]. done.
Qed.

Lemma trimStart_empty s : JS.trimStart s = "" -> JS.blank s = true.
Proof.
  induction s as [|c s IH]; simpl; [done|].
  destruct (JS.is_space c); [auto | done].
Qed.

Lemma trimEnd_empty s : JS.trimEnd s = "" -> JS.blank s = true.
Proof.
  induction s as [|c s IH]; simpl; [done|].
  destruct (JS.trimEnd s) eqn:E; [|done].
  destruct (JS.is_space c); [auto | done].
Qed.

(** [s.trim()] is the empty string exactly when [s] is blank. *)
Lemma trim_empty_iff s : JS.trim s = "" <-> JS.blank s = true.
Proof.
  unfold JS.trim. split.
  - intros H. apply trimEnd_empty in H.
    destruct (JS.trimStart s) as [|c rest] eqn:E.
    + by apply trimStart_empty.
    + apply trimStart_head in E. simpl in H. rewrite E in H. done.
  - intros H. by rewrite (trimStart_blank s H).
Qed.

(** The name check of [POST /register] on a string. *)
Lemma name_missing_string s :
  name_missing (Some (JStr s)) = JS.Return (JS.blank s).
Proof.
  unfold name_missing. simpl.
  destruct (String.eqb s "") eqn:E; simpl.
  - apply String.eqb_eq in E. by subst.
  - f_equal. destruct (JS.blank s) eqn:B.
    + apply trim_empty_iff in B. rewrite B. done.
    + destruct (String.eqb (JS.trim s) "") eqn:T; [|done].
      apply String.eqb_eq, trim_empty_iff in T. congruence.
Qed.

Lemma String_nonneg n :
  0 <= n ->
  JS.String n = NilZero.string_of_uint (N.to_uint (Z.to_N n)).
Proof.
  intros H. unfold JS.String.
  destruct (n <? 0)%Z eqn:E; [lia | done].
Qed.

Lemma to_uint_not_nil n : N.to_uint n <> Decimal.Nil.
Proof.
  destruct n as [|p]; [done|]. simpl.
  intros H. pose proof (DecimalPos.Unsigned.to_uint_nonnil p). done.
Qed.

(** Reading back a printed integer of the exact range. *)
Lemma Number_String n :
  0 <= n <= JS.MAX_EXACT -> JS.Number (JS.String n) = Some n.
Proof.
  intros [H0 H1]. rewrite String_nonneg by done.
  unfold JS.Number.
  pose proof (NilZero.usu _ (to_uint_not_nil (Z.to_N n))) as Hu.
  destruct (NilZero.string_of_uint (N.to_uint (Z.to_N n))) as [|c rest] eqn:E.
  - simpl in Hu. done.
  - rewrite Hu. simpl. rewrite Unsigned.of_to, Z2N.id by done.
    destruct (n <=? JS.MAX_EXACT)%Z eqn:L; [done | lia].
Qed.

Lemma Math_max0_ge ns n : n ∈ ns -> n <= JS.Math_max0 ns.
Proof.
  induction 1; simpl; lia.
Qed.

Lemma Math_max0_nonneg ns : 0 <= JS.Math_max0 ns.
Proof. induction ns; simpl; lia. Qed.

Lemma Math_max0_app ns ms :
  JS.Math_max0 (ns ++ ms)%list = Z.max (JS.Math_max0 ns) (JS.Math_max0 ms).
Proof.
  induction ns as [|n ns IH]; simpl.
  - pose proof (Math_max0_nonneg ms). lia.
  - rewrite IH. lia.
Qed.

(** ** Id generation and registration *)

Lemma genId_numeric inv ns :
  ids_numeric inv ns ->
  JS.Math_max0 ns + 1 <= JS.MAX_EXACT ->
  genId inv = Some (JS.String (JS.Math_max0 ns + 1)).
Proof.
  unfold ids_numeric, genId. intros -> Hle. simpl.
  destruct (JS.Math_max0 ns + 1 <=? JS.MAX_EXACT)%Z eqn:E; [done | lia].
Qed.

Lemma ids_numeric_elem inv ns i :
  ids_numeric inv ns -> i ∈ inv ->
  exists n, JS.Number (id i) = Some n /\ n ∈ ns.
Proof.
  unfold ids_numeric. intros H%mapM_Some_1 Hi.
  apply list_elem_of_lookup in Hi as [k Hk].
  destruct (Forall2_lookup_l _ _ _ _ _ H Hk) as (n & Hn & Hnum).
  exists n. split; [done|]. apply list_elem_of_lookup. eauto.
Qed.

Lemma ids_numeric_snoc inv ns i n :
  ids_numeric inv ns -> JS.Number (id i) = Some n ->
  ids_numeric (inv ++ [i])%list (ns ++ [n])%list.
Proof.
  unfold ids_numeric. intros H%mapM_Some_1 Hn.
  apply mapM_Some_2, Forall2_app; [done|].
  by constructor.
Qed.

(** The id drawn by [genId] is carried by no record of the collection. *)
Lemma genId_fresh inv ns new_id :
  ids_numeric inv ns -> genId inv = Some new_id ->
  new_id ∉ map id inv.
Proof.
  intros Hnum Hgen Hin.
  apply list_elem_of_In, in_map_iff in Hin as (i & Hid & Hi%list_elem_of_In).
  destruct (ids_numeric_elem _ _ _ Hnum Hi) as (n & Hn & Hns).
  pose proof (Math_max0_ge _ _ Hns) as Hmax.
  pose proof (Math_max0_nonneg ns) as H0.
  unfold genId in Hgen. rewrite Hnum in Hgen. simpl in Hgen.
  destruct (JS.Math_max0 ns + 1 <=? JS.MAX_EXACT)%Z eqn:E; [|done].
  injection Hgen as <-.
  rewrite Hid, Number_String in Hn by lia.
  injection Hn as <-. lia.
Qed.

Lemma upload_single_inventory req st :
  inventory (snd (upload_single req st)) = inventory st.
Proof. unfold upload_single. by destruct (photo_part req). Qed.

Lemma upload_single_file req st :
  fst (upload_single req st) =
  match photo_part req with
  | Some _ => Some (multer_name req)
  | None => None
  end.
Proof. unfold upload_single. by destruct (photo_part req). Qed.

(** An accepted registration: the response, the appended record and the
    state after it. *)
Lemma post_register_valid req st ns :
  valid_name req ->
  ids_numeric (inventory st) ns ->
  JS.Math_max0 ns + 1 <= JS.MAX_EXACT ->
  let i := registered req (JS.String (JS.Math_max0 ns + 1)) in
  post_register req st =
    Some (respond 201 (json_item (dto req i)),
          {| inventory := (inventory st ++ [i])%list;
             photos := photos (snd (upload_single req st));
             db_file := Some (JSON_stringify (inventory st ++ [i])%list) |}).
Proof.
  intros (s & Hname & Hblank) Hnum Hle i.
  unfold post_register.
  pose proof (upload_single_inventory req st) as Hinv.
  pose proof (upload_single_file req st) as Hfile.
  destruct (upload_single req st) as [file st1]. simpl in Hinv, Hfile.
  rewrite Hname, name_missing_string, Hblank, Hinv.
  rewrite (genId_numeric _ _ Hnum Hle). simpl.
  unfold i, registered, saveInventory. simpl.
  rewrite Hname, <- Hfile. done.
Qed.

(** A run of accepted registrations hands out the ids that follow the
    largest id of the collection, in order. *)
Lemma register_all_ids reqs : forall st ns,
  Forall valid_name reqs ->
  ids_numeric (inventory st) ns ->
  JS.Math_max0 ns + Z.of_nat (length reqs) <= JS.MAX_EXACT ->
  exists ress st',
    register_all reqs st = Some (ress, st')
    /\ mapM assigned_id ress =
         Some (map (fun k => JS.String (JS.Math_max0 ns + Z.of_nat k))
                   (seq 1 (length reqs)))
    /\ (ids_unique (inventory st) -> ids_unique (inventory st')).
Proof.
  induction reqs as [|req reqs IH]; intros st ns Hvalid Hnum Hle.
  - exists [], st. simpl. done.
  - apply Forall_cons in Hvalid as [Hreq Hreqs].
    pose proof (Math_max0_nonneg ns) as H0.
    simpl length in Hle.
    assert (Hle1 : JS.Math_max0 ns + 1 <= JS.MAX_EXACT) by lia.
    pose proof (post_register_valid req st ns Hreq Hnum Hle1) as Hpost.
    simpl in Hpost.
    set (m := JS.Math_max0 ns) in *.
    set (i := registered req (JS.String (m + 1))) in *.
    set (st1 := {| inventory := (inventory st ++ [i])%list;
                   photos := photos (snd (upload_single req st));
                   db_file := Some (JSON_stringify (inventory st ++ [i])%list) |}) in *.
    assert (Hnum1 : ids_numeric (inventory st1) (ns ++ [m + 1])%list).
    { apply ids_numeric_snoc; [done|]. simpl. apply Number_String. lia. }
    assert (Hmax1 : JS.Math_max0 (ns ++ [m + 1])%list = m + 1).
    { rewrite Math_max0_app. simpl. fold m. lia. }
    destruct (IH st1 _ Hreqs Hnum1) as (ress & st' & Hrun & Hids & Huniq).
    { rewrite Hmax1. lia. }
    exists (respond 201 (json_item (dto req i)) :: ress), st'.
    split; [|split].
    + simpl. rewrite Hpost. simpl. rewrite Hrun. done.
    + simpl. rewrite Hids. simpl. do 2 f_equal.
      rewrite <- (seq_shift (length reqs) 1), map_map. apply map_ext. intros k.
      rewrite Hmax1. f_equal. lia.
    + intros Hu. apply Huniq. unfold ids_unique, st1. simpl.
      rewrite map_app. simpl. apply NoDup_app. split; [done|]. split.
      * intros k Hk ->%list_elem_of_singleton.
        eapply genId_fresh; [exact Hnum| |exact Hk].
        by apply genId_numeric.
      * apply NoDup_singleton.
Qed.

Lemma String_inj_exact a b :
  0 <= a <= JS.MAX_EXACT -> 0 <= b <= JS.MAX_EXACT ->
  JS.String a = JS.String b -> a = b.
Proof.
  intros Ha Hb E. apply (f_equal JS.Number) in E.
  rewrite !Number_String in E by done. congruence.
Qed.

(** C5.  With the ids of the collection numerals of values [ns], and [m]
    the largest of them ([0] for the empty collection): [genId] on the empty
    collection is ["1"]; an accepted registration answers 201 with the id
    that prints [m + 1] and appends the record carrying it; a run of
    accepted registrations hands out ids whose numbers are [m + 1],
    [m + 2], ... in order, each one more than the largest id present at its
    call, pairwise distinct, carried by no record present before the run,
    and keeps the ids of the collection unique. *)
Theorem genId_max_plus_one req reqs st ns :
  ids_numeric (inventory st) ns ->
  Forall valid_name (req :: reqs) ->
  JS.Math_max0 ns + Z.of_nat (length (req :: reqs)) <= JS.MAX_EXACT ->
  let m := JS.Math_max0 ns in
  genId [] = Some "1"
  /\ genId (inventory st) = Some (JS.String (m + 1))
  /\ (exists st1,
        post_register req st =
          Some (respond 201 (json_item (dto req (registered req (JS.String (m + 1))))), st1)
        /\ inventory st1 = (inventory st ++ [registered req (JS.String (m + 1))])%list)
  /\ (exists ress st' new_ids,
        register_all (req :: reqs) st = Some (ress, st')
        /\ mapM assigned_id ress = Some new_ids
        /\ mapM JS.Number new_ids =
             Some (map (fun k => m + Z.of_nat k) (seq 1 (length (req :: reqs))))
        /\ NoDup new_ids
        /\ (forall k, k ∈ new_ids -> k ∉ map id (inventory st))
        /\ (ids_unique (inventory st) -> ids_unique (inventory st'))).
Proof.
  intros Hnum Hvalid Hle m.
  pose proof (Math_max0_nonneg ns) as H0. fold m in H0.
  assert (Hle1 : m + 1 <= JS.MAX_EXACT) by (simpl length in Hle; lia).
  split; [reflexivity|]. split; [by apply genId_numeric|]. split.
  - eexists. split.
    + apply post_register_valid; [by inversion Hvalid | done | done].
    + reflexivity.
  - destruct (register_all_ids _ st ns Hvalid Hnum Hle)
      as (ress & st' & Hrun & Hids & Huniq).
    fold m in Hids.
    set (n := length (req :: reqs)) in *.
    exists ress, st', (map (fun k => JS.String (m + Z.of_nat k)) (seq 1 n)).
    assert (Hrange : forall k, k ∈ seq 1 n -> 0 <= m + Z.of_nat k <= JS.MAX_EXACT).
    { intros k Hk%elem_of_seq. lia. }
    repeat split; try done.
    + apply mapM_Some_2.
      change (Forall2 (fun x y => JS.Number x = Some y)
                ((fun k => JS.String (m + Z.of_nat k)) <$> seq 1 n)
                ((fun k => m + Z.of_nat k) <$> seq 1 n)).
      apply Forall2_fmap, Forall_Forall2_diag, Forall_forall.
      intros k Hk. apply Number_String. auto.
    + change (NoDup ((fun k => JS.String (m + Z.of_nat k)) <$> seq 1 n)).
      apply NoDup_fmap_2_strong; [|apply NoDup_seq].
      intros x y Hx Hy E. apply String_inj_exact in E; auto. lia.
    + intros k Hk Hin.
      apply list_elem_of_In, in_map_iff in Hk as (j & <- & Hj%list_elem_of_In).
      apply list_elem_of_In, in_map_iff in Hin as (i & Hid & Hi%list_elem_of_In).
      destruct (ids_numeric_elem _ _ _ Hnum Hi) as (v & Hv & Hns).
      pose proof (Math_max0_ge _ _ Hns) as Hmax. fold m in Hmax.
      rewrite Hid, Number_String in Hv by auto.
      apply elem_of_seq in Hj. injection Hv as <-. lia.
Qed.

(** ** Looking records up *)

Lemma findItem_Some inv k pos i :
  findItem inv k = Some (pos, i) ->
  inv !! pos = Some i /\ id i = k
  /\ forall j y, inv !! j = Some y -> (j < pos)%nat -> id y <> k.
Proof. unfold findItem. by rewrite list_find_Some. Qed.

Lemma findItem_None inv k :
  findItem inv k = None <-> forall i, i ∈ inv -> id i <> k.
Proof. unfold findItem. by rewrite list_find_None, Forall_forall. Qed.

Lemma findItem_elem_of inv k pos i :
  findItem inv k = Some (pos, i) -> i ∈ inv.
Proof.
  intros (Hpos & _ & _)%findItem_Some. apply list_elem_of_lookup. eauto.
Qed.

(** Assigning to fields other than [id] of the record that [find] returned
    leaves it the record that [find] returns. *)
Lemma findItem_insert inv k pos i i' :
  findItem inv k = Some (pos, i) -> id i' = id i ->
  findItem (<[pos := i']> inv) k = Some (pos, i').
Proof.
  intros (Hpos & Hid & Hmin)%findItem_Some Hid'.
  unfold findItem. apply list_find_Some. split; [|split].
  - apply list_lookup_insert_eq. by eapply lookup_lt_Some.
  - congruence.
  - intros j y Hj Hlt. rewrite list_lookup_insert_ne in Hj by lia. eauto.
Qed.

(** A request for another id finds the same record as before, unless it
    was the one assigned to. *)
Lemma findItem_insert_other inv k k' pos i i' :
  findItem inv k = Some (pos, i) -> id i' = id i -> k' <> k ->
  findItem (<[pos := i']> inv) k' = findItem inv k'.
Proof.
  intros (Hpos & Hid & Hmin)%findItem_Some Hid' Hne.
  assert (Hlen : (pos < length inv)%nat) by by eapply lookup_lt_Some.
  destruct (findItem inv k') as [[j y]|] eqn:E.
  - apply findItem_Some in E as (Hj & Hy & Hminj).
    assert (j <> pos) by (intros ->; congruence).
    unfold findItem. apply list_find_Some. split; [|split].
    + by rewrite list_lookup_insert_ne.
    + done.
    + intros j' y' Hj' Hlt.
      destruct (decide (j' = pos)) as [->|Hne'].
      * rewrite list_lookup_insert_eq in Hj' by done. congruence.
      * rewrite list_lookup_insert_ne in Hj' by done. eauto.
  - apply findItem_None. intros y [j Hj]%list_elem_of_lookup.
    destruct (decide (j = pos)) as [->|Hne'].
    + rewrite list_lookup_insert_eq in Hj by done. congruence.
    + rewrite list_lookup_insert_ne in Hj by done.
      eapply findItem_None; [exact E|]. apply list_elem_of_lookup. eauto.
Qed.

(** With unique ids, removing the record found leaves none with its id. *)
Lemma findItem_delete inv k pos i :
  ids_unique inv -> findItem inv k = Some (pos, i) ->
  findItem (delete pos inv) k = None.
Proof.
  intros Hu (Hpos & Hid & Hmin)%findItem_Some.
  apply findItem_None. intros y [j Hj]%list_elem_of_lookup Hy.
  rewrite list_lookup_delete in Hj.
  unfold ids_unique in Hu. change (NoDup (id <$> inv)) in Hu.
  assert (Hinj : forall a b, (id <$> inv) !! a = Some k ->
                             (id <$> inv) !! b = Some k -> a = b).
  { intros a b Ha Hb. eapply NoDup_lookup; eauto. }
  assert (Hp : (id <$> inv) !! pos = Some k) by by rewrite list_lookup_fmap, Hpos, <- Hid.
  destruct (decide (j < pos)%nat) as [Hlt|Hge].
  - eapply Hmin; eauto.
  - assert (S j = pos); [|lia].
    apply Hinj; [|done]. by rewrite list_lookup_fmap, Hj, <- Hy.
Qed.

(** ** Start-up, rejected registration, update, photo reads *)

(** C7.  At start-up the collection is what [JSON.parse] makes of the
    snapshot file; when the file is absent or [JSON.parse] throws on its
    text, [loadInventory] returns the empty array and the process starts
    with the empty collection, without an error. *)
Theorem loadInventory_empty_on_failure db dir :
  (db = None \/ exists text e, db = Some text /\ JSON_parse text = JS.Throw e) ->
  loadInventory db = JArr []
  /\ start db dir = Some {| inventory := []; photos := dir; db_file := db |}
  /\ (forall text parsed inv,
        JSON_parse text = JS.Return parsed -> inventory_of_json parsed = Some inv ->
        loadInventory (Some text) = parsed
        /\ start (Some text) dir =
             Some {| inventory := inv; photos := dir; db_file := Some text |}).
Proof.
  intros Hdb.
  assert (Hload : loadInventory db = JArr []).
  { unfold loadInventory.
    destruct Hdb as [->|(text & e & -> & Hparse)]; simpl; [done|].
    by rewrite Hparse. }
  split; [done|]. split.
  - unfold start. rewrite Hload. reflexivity.
  - intros text parsed inv Hparse Hinv. unfold start, loadInventory. simpl.
    rewrite Hparse. simpl. split; [done|]. rewrite Hinv. reflexivity.
Qed.

(** A registration whose name is a blank string is answered 400 right after
    the upload middleware: the state is the one the middleware left. *)
Lemma post_register_blank req st s :
  body_inventory_name req = Some (JStr s) -> JS.blank s = true ->
  post_register req st =
    Some (respond 400 (json_error "inventory_name is required"),
          snd (upload_single req st)).
Proof.
  intros Hname Hblank. unfold post_register.
  destruct (upload_single req st) as [file st1].
  rewrite Hname, name_missing_string, Hblank. done.
Qed.

(** C2, on the code.  A registration with a blank name is answered 400 and
    adds no record and writes no snapshot; without a photo part the photo
    directory is unchanged as well, but the bytes of a photo part stay
    stored under the name the upload middleware drew. *)
Theorem post_register_blank_name req st s :
  body_inventory_name req = Some (JStr s) -> JS.blank s = true ->
  exists st',
    post_register req st =
      Some (respond 400 (json_error "inventory_name is required"), st')
    /\ inventory st' = inventory st
    /\ db_file st' = db_file st
    /\ (photo_part req = None -> st' = st)
    /\ (forall data, photo_part req = Some data ->
          photos st' = <[multer_name req := data]> (photos st)).
Proof.
  intros Hname Hblank. eexists. split; [by eapply post_register_blank|].
  unfold upload_single. destruct (photo_part req) as [data|]; simpl.
  - repeat split; [done|]. by intros ? [= ->].
  - done.
Qed.

(** C6.  [PUT /inventory/:id] on a record that exists answers 200 with the
    view of the patched record and assigns exactly the supplied fields: the
    name is the supplied one if any and the old one otherwise, likewise the
    description; id and photo reference are kept; the other records are
    untouched and found under their ids as before; with neither field
    supplied the record, the collection and
    the photo directory are as before and the view is the one of the
    unmodified record. *)
Theorem put_item_partial_patch req st pos i :
  findItem (inventory st) (params_id req) = Some (pos, i) ->
  let i' := patch req i in
  put_item req st =
    (respond 200 (json_item (dto req i')),
     {| inventory := <[pos := i']> (inventory st);
        photos := photos st;
        db_file := Some (JSON_stringify (<[pos := i']> (inventory st))) |})
  /\ inventory_name i' = default (inventory_name i) (body_inventory_name req)
  /\ description i' = default (description i) (body_description req)
  /\ id i' = id i /\ photoFilename i' = photoFilename i
  /\ (forall j, j <> pos -> <[pos := i']> (inventory st) !! j = inventory st !! j)
  /\ (forall k, k <> params_id req ->
        findItem (<[pos := i']> (inventory st)) k = findItem (inventory st) k)
  /\ (body_inventory_name req = None -> body_description req = None ->
        i' = i /\ <[pos := i']> (inventory st) = inventory st).
Proof.
  intros Hfind i'. split.
  { unfold put_item. rewrite Hfind. reflexivity. }
  assert (Hid : id i' = id i).
  { unfold i', patch.
    by destruct (body_inventory_name req), (body_description req). }
  assert (Hother : forall k, k <> params_id req ->
            findItem (<[pos := i']> (inventory st)) k = findItem (inventory st) k).
  { intros k Hk. by eapply findItem_insert_other. }
  apply findItem_Some in Hfind as (Hpos & _).
  split; [|split; [|split; [done|split; [|split; [|split; [done|]]]]]].
  - unfold i', patch.
    by destruct (body_inventory_name req), (body_description req).
  - unfold i', patch.
    by destruct (body_inventory_name req), (body_description req).
  - unfold i', patch.
    by destruct (body_inventory_name req), (body_description req).
  - intros j Hj. by apply list_lookup_insert_ne.
  - intros Hn Hd. assert (Hsame : i' = i).
    { unfold i', patch. by rewrite Hn, Hd. }
    rewrite Hsame. split; [done|]. by apply list_insert_id.
Qed.

(** C8.  [PUT /inventory/:id] with a blank string as [inventory_name], on a
    record that exists, answers 200, makes that string the record's name,
    which a later lookup of the id returns, and writes the snapshot of the
    collection that holds it; the same name is refused by
    [POST /register]. *)
Theorem put_item_accepts_blank_name req st pos i s :
  findItem (inventory st) (params_id req) = Some (pos, i) ->
  body_inventory_name req = Some (JStr s) -> JS.blank s = true ->
  exists i' st',
    put_item req st = (respond 200 (json_item (dto req i')), st')
    /\ inventory_name i' = JStr s
    /\ findItem (inventory st') (params_id req) = Some (pos, i')
    /\ db_file st' = Some (JSON_stringify (inventory st'))
    /\ (forall st0, exists st1,
          post_register req st0 =
            Some (respond 400 (json_error "inventory_name is required"), st1)
          /\ inventory st1 = inventory st0).
Proof.
  intros Hfind Hname Hblank.
  exists (patch req i). eexists. split; [|split; [|split; [|split]]].
  - unfold put_item. rewrite Hfind. reflexivity.
  - unfold patch. rewrite Hname. by destruct (body_description req).
  - simpl. apply (findItem_insert _ _ _ i); [done|].
    unfold patch. rewrite Hname. by destruct (body_description req).
  - reflexivity.
  - intros st0. eexists. split; [by eapply post_register_blank|].
    apply upload_single_inventory.
Qed.

(** C9.  [PUT /inventory/:id/photo] with a photo part, for an id that no
    record carries, answers 404 with the collection and the snapshot file
    untouched, while the uploaded bytes are in the photo directory under the
    drawn name; when that name is new and every photo reference named a
    stored file, it is a file that was not there before and that no record
    refers to. *)
Theorem put_photo_unknown_id_keeps_upload req st data :
  findItem (inventory st) (params_id req) = None ->
  photo_part req = Some data ->
  exists st',
    put_photo req st = (respond 404 (json_error "Not found"), st')
    /\ inventory st' = inventory st
    /\ db_file st' = db_file st
    /\ photos st' = <[multer_name req := data]> (photos st)
    /\ photos st' !! multer_name req = Some data
    /\ (photos st !! multer_name req = None -> refs_resolve st ->
          forall i, i ∈ inventory st' -> photoFilename i <> Some (multer_name req)).
Proof.
  intros Hfind Hphoto.
  exists {| inventory := inventory st;
            photos := <[multer_name req := data]> (photos st);
            db_file := db_file st |}.
  split; [|repeat split].
  - unfold put_photo, upload_single, put_photo_handler. rewrite Hphoto. simpl.
    rewrite Hfind. reflexivity.
  - simpl. apply lookup_insert_eq.
  - simpl. intros Hnew Hres i Hi Href.
    destruct (Hres i _ Hi Href) as [? ?]. congruence.
Qed.

(** C10.  [GET /inventory/:id/photo] for a record whose photo reference
    names a stored file answers 200 with the stored bytes, whatever they
    are, under the content type [image/jpeg]. *)
Theorem get_photo_always_jpeg req st pos i name data :
  findItem (inventory st) (params_id req) = Some (pos, i) ->
  photoFilename i = Some name -> name <> "" ->
  photos st !! name = Some data ->
  get_photo req st = (respond 200 (send_file "image/jpeg" data), st).
Proof.
  intros Hfind Href Hname Hdata. unfold get_photo.
  rewrite Hfind, Href. simpl.
  destruct (String.eqb name "") eqn:E.
  - apply String.eqb_eq in E. done.
  - simpl. rewrite Hdata. reflexivity.
Qed.

(** ** Deleting a record, replacing a photo *)

Lemma unlink_if_set_inventory f st :
  inventory (unlink_if_set f st) = inventory st.
Proof.
  unfold unlink_if_set. destruct f as [name|]; [|done].
  by destruct (JS.truthy_name _).
Qed.

Lemma unlink_if_set_photos name st :
  name <> "" ->
  photos (unlink_if_set (Some name) st) = delete name (photos st).
Proof.
  intros Hname. unfold unlink_if_set. simpl.
  destruct (String.eqb name "") eqn:E; [by apply String.eqb_eq in E | done].
Qed.

(** C4.  With unique ids, [DELETE /inventory/:id] on a record that exists
    answers 200 and removes it: a later [GET] of the id is 404; the file its
    photo reference named is gone from the photo directory and the other
    files stay; a second [DELETE] of the id is 404 and changes nothing.
    For an id that no record carries the answer is 404 and the state is
    unchanged. *)
Theorem delete_item_removes_record_and_photo req st :
  ids_unique (inventory st) ->
  match findItem (inventory st) (params_id req) with
  | Some (pos, removed) =>
      exists st',
        delete_item req st = (respond 200 (json_message "Deleted"), st')
        /\ inventory st' = delete pos (inventory st)
        /\ db_file st' = Some (JSON_stringify (inventory st'))
        /\ (forall req', params_id req' = params_id req ->
              get_item req' st' = (respond 404 (json_error "Not found"), st'))
        /\ (forall name, photoFilename removed = Some name -> name <> "" ->
              photos st' !! name = None
              /\ (forall other, other <> name ->
                    photos st' !! other = photos st !! other)
              /\ (forall req', params_id req' = params_id req ->
                    get_photo req' st' = (respond 404 (send_text "Not found"), st')))
        /\ (photoFilename removed = None -> photos st' = photos st)
        /\ (forall req', params_id req' = params_id req ->
              delete_item req' st' = (respond 404 (json_error "Not found"), st'))
  | None =>
      delete_item req st = (respond 404 (json_error "Not found"), st)
  end.
Proof.
  intros Hu.
  destruct (findItem (inventory st) (params_id req)) as [[pos removed]|] eqn:Hfind.
  - pose proof (findItem_delete _ _ _ _ Hu Hfind) as Hgone.
    eexists. split; [unfold delete_item; rewrite Hfind; reflexivity|].
    simpl. rewrite !unlink_if_set_inventory. simpl.
    split; [done|]. split; [done|]. split; [|split; [|split]].
    + intros req' Heq. unfold get_item. simpl.
      rewrite unlink_if_set_inventory. simpl. rewrite Heq, Hgone. done.
    + intros name Href Hname. rewrite Href, unlink_if_set_photos by done.
      simpl. split; [apply lookup_delete_eq|]. split.
      * intros other Hother. by apply lookup_delete_ne.
      * intros req' Heq. unfold get_photo. simpl.
        rewrite unlink_if_set_inventory. simpl. rewrite Heq, Hgone. done.
    + intros Href. rewrite Href. done.
    + intros req' Heq. unfold delete_item. simpl.
      rewrite unlink_if_set_inventory. simpl. rewrite Heq, Hgone. done.
  - unfold delete_item. rewrite Hfind. done.
Qed.

(** C3, as the code has it.  [PUT /inventory/:id/photo] answers 404 for an
    id that no record carries, with or without a photo part, and 400 for a
    record that exists when the photo part is absent, changing nothing.
    For a record that exists and a photo part stored under a new name: the
    upload middleware has stored the new bytes while the old file is still
    there; the handler then removes the old file and points the record to
    the new one, so that a later [GET] of the photo answers the new bytes
    and the old name is no longer in the photo directory. *)
Theorem put_photo_replaces req st :
  match findItem (inventory st) (params_id req) with
  | None =>
      put_photo req st =
        (respond 404 (json_error "Not found"), snd (upload_single req st))
  | Some (pos, i) =>
      (photo_part req = None ->
         put_photo req st =
           (respond 400 (json_error "photo file is required"), st))
      /\ (forall data, photo_part req = Some data -> fresh_name req st ->
           let i' := {| id := id i; inventory_name := inventory_name i;
                        description := description i;
                        photoFilename := Some (multer_name req) |} in
           let uploaded := snd (upload_single req st) in
           exists st',
             put_photo req st =
               (respond 200 (json_photo_updated (id i) (photoUrl req i') "Photo updated"),
                st')
             /\ photos uploaded !! multer_name req = Some data
             /\ (forall old, photoFilename i = Some old ->
                   photos uploaded !! old = photos st !! old)
             /\ inventory st' = <[pos := i']> (inventory st)
             /\ db_file st' = Some (JSON_stringify (inventory st'))
             /\ get_photo req st' = (respond 200 (send_file "image/jpeg" data), st')
             /\ (forall old, photoFilename i = Some old -> old <> "" ->
                   photos st' !! old = None))
  end.
Proof.
  destruct (findItem (inventory st) (params_id req)) as [[pos i]|] eqn:Hfind.
  - split.
    + intros Hno. unfold put_photo, upload_single, put_photo_handler.
      rewrite Hno, Hfind. done.
    + intros data Hdata (Hname & Hnew & Hunref) i' uploaded.
      assert (Hup : upload_single req st =
                (Some (multer_name req),
                 {| inventory := inventory st;
                    photos := <[multer_name req := data]> (photos st);
                    db_file := db_file st |})).
      { unfold upload_single. by rewrite Hdata. }
      assert (Hne : forall old, photoFilename i = Some old -> old <> multer_name req).
      { intros old Hold ->. eapply Hunref; [|exact Hold].
        by eapply findItem_elem_of. }
      unfold uploaded. rewrite Hup. simpl.
      eexists. split.
      { unfold put_photo, put_photo_handler. rewrite Hup. simpl.
        rewrite Hfind. reflexivity. }
      simpl. rewrite !unlink_if_set_inventory. simpl.
      split; [apply lookup_insert_eq|].
      split; [intros old Hold; apply lookup_insert_ne; by intros <-; eapply Hne|].
      split; [done|]. split; [done|]. split.
      * unfold get_photo. simpl.
        rewrite (findItem_insert _ _ _ i) by done. simpl.
        destruct (String.eqb (multer_name req) "") eqn:E;
          [by apply String.eqb_eq in E|]. simpl.
        destruct (photoFilename i) as [old|] eqn:Hold.
        -- destruct (decide (old = "")) as [->|Hold'].
           ++ simpl. by rewrite lookup_insert_eq.
           ++ rewrite unlink_if_set_photos by done. simpl.
              rewrite lookup_delete_ne, lookup_insert_eq by by apply Hne.
              done.
        -- simpl. by rewrite lookup_insert_eq.
      * intros old Hold Hold'. rewrite Hold, unlink_if_set_photos by done.
        apply lookup_delete_eq.
  - unfold put_photo, put_photo_handler.
    destruct (upload_single req st) as [file st1] eqn:Hup.
    pose proof (upload_single_inventory req st) as Hinv. rewrite Hup in Hinv.
    simpl in *. rewrite Hinv, Hfind. done.
Qed.

(** ** Records and photo directory: what the handlers preserve *)

Lemma refs_sound_iff st :
  refs_sound st <-> resolved (refs (inventory st)) (photos st).
Proof.
  unfold refs_sound, refs_resolve, refs_distinct, refs_truthy, resolved, refs.
  split.
  - intros (Hres & Hdist & Htruthy). split; [|split; [done|]].
    + intros r (i & Hi & Hr)%list_elem_of_omap. eauto.
    + intros (i & Hi & Hr)%list_elem_of_omap. by eapply Htruthy.
  - intros (Hres & Hdist & Htruthy). split; [|split; [done|]].
    + intros i name Hi Hr. apply Hres, list_elem_of_omap. eauto.
    + intros i Hi Hr. apply Htruthy, list_elem_of_omap. eauto.
Qed.

Lemma no_orphans_iff st :
  no_orphans st <-> covered (refs (inventory st)) (photos st).
Proof.
  unfold no_orphans, covered, refs. split.
  - intros Horph r Hs. apply list_elem_of_omap.
    destruct (Horph r Hs) as (i & Hi & Hr). eauto.
  - intros Hcov name Hs. by apply Hcov, list_elem_of_omap in Hs.
Qed.

Lemma consistent_iff st :
  consistent st <->
  resolved (refs (inventory st)) (photos st)
  /\ covered (refs (inventory st)) (photos st).
Proof.
  rewrite <- refs_sound_iff, <- no_orphans_iff.
  unfold consistent, no_orphan_invariant, refs_sound. tauto.
Qed.

(** Storing one more file keeps the references sound. *)
Lemma resolved_store R P name data :
  resolved R P -> resolved R (<[name := data]> P).
Proof.
  intros (Hres & Hdist & Htruthy). split; [|done].
  intros r Hr. destruct (decide (name = r)) as [->|Hne].
  - rewrite lookup_insert_eq. eauto.
  - rewrite lookup_insert_ne by done. auto.
Qed.

Lemma resolved_insert R1 R2 P name data :
  resolved (R1 ++ R2)%list P -> P !! name = None -> name <> "" ->
  resolved (R1 ++ name :: R2)%list (<[name := data]> P).
Proof.
  intros (Hres & Hdist & Htruthy) Hnew Hname.
  assert (Hnot : name ∉ (R1 ++ R2)%list).
  { intros [? ?]%Hres. congruence. }
  apply not_elem_of_app in Hnot as [Hn1 Hn2].
  apply NoDup_app in Hdist as (H1 & H12 & H2).
  split; [|split].
  - intros r Hr. destruct (decide (name = r)) as [->|Hne].
    + rewrite lookup_insert_eq. eauto.
    + rewrite lookup_insert_ne by done. apply Hres.
      apply elem_of_app in Hr as [?|[?|?]%elem_of_cons];
        rewrite elem_of_app; auto. congruence.
  - apply NoDup_app. split; [done|]. split; [|by apply NoDup_cons].
    intros r Hr [->|Hr2]%elem_of_cons; [done|]. by apply (H12 r).
  - rewrite elem_of_app, elem_of_cons. intros [?|[?|?]]; [|congruence|];
      apply Htruthy, elem_of_app; auto.
Qed.

Lemma covered_insert R1 R2 P name data :
  covered (R1 ++ R2)%list P ->
  covered (R1 ++ name :: R2)%list (<[name := data]> P).
Proof.
  intros Hcov r Hs. rewrite elem_of_app, elem_of_cons.
  destruct (decide (name = r)) as [->|Hne]; [auto|].
  rewrite lookup_insert_ne in Hs by done.
  apply Hcov, elem_of_app in Hs as [?|?]; auto.
Qed.

Lemma resolved_remove R1 R2 P old :
  resolved (R1 ++ old :: R2)%list P ->
  resolved (R1 ++ R2)%list (delete old P).
Proof.
  intros (Hres & Hdist & Htruthy).
  apply NoDup_app in Hdist as (H1 & H12 & [Hold H2]%NoDup_cons).
  assert (Hold1 : old ∉ R1).
  { intros Hin. apply (H12 _ Hin). apply list_elem_of_here. }
  split; [|split].
  - intros r Hr.
    assert (old <> r) by (intros ->; apply elem_of_app in Hr as [?|?]; done).
    rewrite lookup_delete_ne by done. apply Hres.
    apply elem_of_app in Hr as [?|?]; rewrite elem_of_app, elem_of_cons; auto.
  - apply NoDup_app. split; [done|]. split; [|done].
    intros r Hr Hr2. apply (H12 _ Hr). by apply list_elem_of_further.
  - rewrite elem_of_app. intros [?|?]; apply Htruthy;
      rewrite elem_of_app, elem_of_cons; auto.
Qed.

Lemma covered_remove R1 R2 P old :
  covered (R1 ++ old :: R2)%list P ->
  covered (R1 ++ R2)%list (delete old P).
Proof.
  intros Hcov r Hs. destruct (decide (old = r)) as [->|Hne].
  - rewrite lookup_delete_eq in Hs. by destruct Hs.
  - rewrite lookup_delete_ne in Hs by done.
    apply Hcov, elem_of_app in Hs as [?|[?|?]%elem_of_cons];
      rewrite elem_of_app; auto. congruence.
Qed.

(** The references around the record at a position. *)
Lemma refs_split inv pos i :
  inv !! pos = Some i ->
  refs inv = (refs (take pos inv) ++ refs [i] ++ refs (drop (S pos) inv))%list
  /\ refs (delete pos inv) = (refs (take pos inv) ++ refs (drop (S pos) inv))%list
  /\ forall i', refs (<[pos := i']> inv) =
       (refs (take pos inv) ++ refs [i'] ++ refs (drop (S pos) inv))%list.
Proof.
  intros Hpos. unfold refs. split; [|split].
  - rewrite <- !omap_app. simpl. by rewrite take_drop_middle.
  - by rewrite delete_take_drop, omap_app.
  - intros i'. rewrite insert_take_drop by by eapply lookup_lt_Some.
    by rewrite <- !omap_app.
Qed.

Lemma refs_snoc inv i :
  refs (inv ++ [i])%list =
  (refs inv ++ match photoFilename i with Some name => [name] | None => [] end)%list.
Proof. unfold refs. rewrite omap_app. simpl. by destruct (photoFilename i). Qed.

Lemma resolved_snoc R P name data :
  resolved R P -> P !! name = None -> name <> "" ->
  resolved (R ++ [name])%list (<[name := data]> P).
Proof.
  intros Hres Hnew Hname. apply resolved_insert; [|done|done].
  by rewrite app_nil_r.
Qed.

Lemma covered_snoc R P name data :
  covered R P -> covered (R ++ [name])%list (<[name := data]> P).
Proof. intros Hcov. apply covered_insert. by rewrite app_nil_r. Qed.

(** [POST /register] keeps the references sound, whatever it answers, and
    leaves no unreferenced file when it accepts the request or the request
    has no photo part. *)
Lemma post_register_refs req st res st' :
  upload_fresh req st ->
  post_register req st = Some (res, st') ->
  (refs_sound st -> refs_sound st')
  /\ (status res = 201 \/ photo_part req = None -> consistent st -> consistent st').
Proof.
  intros Hfresh Hpost.
  rewrite !refs_sound_iff, !consistent_iff.
  unfold post_register, upload_single, upload_fresh in *.
  destruct (photo_part req) as [data|].
  - destruct Hfresh as (Hname & Hnew & _).
    destruct (body_inventory_name req) as [name|];
      destruct (name_missing _) as [[|]|e]; simpl in Hpost;
      try (injection Hpost as <- <-; simpl;
           split; [by apply resolved_store | by intros [?|?]]).
    destruct (genId (inventory st)) as [new_id|]; simpl in Hpost; [|done].
    injection Hpost as <- <-. simpl. rewrite refs_snoc. simpl. split.
    + intros Hres. by apply resolved_snoc.
    + intros _ [Hres Hcov]. split; [by apply resolved_snoc | by apply covered_snoc].
  - destruct (body_inventory_name req) as [name|];
      destruct (name_missing _) as [[|]|e]; simpl in Hpost;
      try (by injection Hpost as <- <-).
    destruct (genId (inventory st)) as [new_id|]; simpl in Hpost; [|done].
    injection Hpost as <- <-. simpl. rewrite refs_snoc. simpl.
    by rewrite app_nil_r.
Qed.

(** [DELETE /inventory/:id] keeps both. *)
Lemma delete_item_refs req st :
  (refs_sound st -> refs_sound (snd (delete_item req st)))
  /\ (consistent st -> consistent (snd (delete_item req st))).
Proof.
  unfold delete_item.
  destruct (findItem (inventory st) (params_id req)) as [[pos removed]|] eqn:Hfind;
    [|done].
  apply findItem_Some in Hfind as (Hpos & _).
  destruct (refs_split _ _ _ Hpos) as (Hall & Hdel & _).
  rewrite !refs_sound_iff, !consistent_iff. simpl.
  rewrite unlink_if_set_inventory. simpl. rewrite Hdel, Hall.
  unfold refs at 2 5. simpl.
  destruct (photoFilename removed) as [old|] eqn:Hold; simpl; [|done].
  assert (Hold' : resolved
            (refs (take pos (inventory st)) ++ old :: refs (drop (S pos) (inventory st)))%list
            (photos st) -> old <> "").
  { intros (_ & _ & Htruthy) ->. apply Htruthy.
    rewrite elem_of_app, elem_of_cons. auto. }
  split.
  - intros Hres. rewrite unlink_if_set_photos by auto. by apply resolved_remove.
  - intros [Hres Hcov]. rewrite unlink_if_set_photos by auto.
    split; [by apply resolved_remove | by apply covered_remove].
Qed.

(** [PUT /inventory/:id/photo] keeps the references sound, whatever it
    answers, and leaves no unreferenced file when it accepts the request or
    the request has no photo part. *)
Lemma put_photo_refs req st :
  upload_fresh req st ->
  (refs_sound st -> refs_sound (snd (put_photo req st)))
  /\ (status (fst (put_photo req st)) = 200 \/ photo_part req = None ->
      consistent st -> consistent (snd (put_photo req st))).
Proof.
  intros Hfresh.
  rewrite !refs_sound_iff, !consistent_iff.
  unfold put_photo, upload_single, put_photo_handler, upload_fresh in *.
  destruct (photo_part req) as [data|]; simpl.
  - destruct Hfresh as (Hname & Hnew & _).
    destruct (findItem _ _) as [[pos i]|] eqn:Hfind; simpl;
      [|split; [by apply resolved_store | by intros [?|?]]].
    apply findItem_Some in Hfind as (Hpos & _).
    destruct (refs_split _ _ _ Hpos) as (Hall & _ & Hins).
    rewrite unlink_if_set_inventory. simpl. rewrite Hins, Hall.
    unfold refs at 2 5 8. simpl.
    destruct (photoFilename i) as [old|] eqn:Hold; simpl.
    + assert (Hold' : resolved
                (refs (take pos (inventory st)) ++ old :: refs (drop (S pos) (inventory st)))%list
                (photos st) -> old <> "" /\ old <> multer_name req).
      { intros (Hres & _ & Htruthy). split.
        - intros ->. apply Htruthy. rewrite elem_of_app, elem_of_cons. auto.
        - intros ->. destruct (Hres (multer_name req)) as [? ?]; [|congruence].
          rewrite elem_of_app, elem_of_cons. auto. }
      split.
      * intros Hres. destruct (Hold' Hres) as [Ho Hne].
        rewrite unlink_if_set_photos by done. simpl.
        rewrite delete_insert_ne by done.
        apply resolved_insert; [|by rewrite lookup_delete_ne|done].
        by apply resolved_remove.
      * intros _ [Hres Hcov]. destruct (Hold' Hres) as [Ho Hne].
        rewrite unlink_if_set_photos by done. simpl.
        rewrite delete_insert_ne by done. split.
        -- apply resolved_insert; [|by rewrite lookup_delete_ne|done].
           by apply resolved_remove.
        -- by apply covered_insert, covered_remove.
    + split.
      * intros Hres. by apply resolved_insert.
      * intros _ [Hres Hcov].
        split; [by apply resolved_insert | by apply covered_insert].
  - by destruct (findItem _ _) as [[pos i]|].
Qed.

(** [PUT /inventory/:id] does not touch the references. *)
Lemma put_item_refs req st :
  (refs_sound st -> refs_sound (snd (put_item req st)))
  /\ (consistent st -> consistent (snd (put_item req st))).
Proof.
  unfold put_item.
  destruct (findItem (inventory st) (params_id req)) as [[pos i]|] eqn:Hfind;
    [|done].
  apply findItem_Some in Hfind as (Hpos & _).
  destruct (refs_split _ _ _ Hpos) as (Hall & _ & Hins).
  rewrite !refs_sound_iff, !consistent_iff. simpl.
  rewrite Hins, Hall.
  assert (Hsame : refs [patch req i] = refs [i]).
  { unfold refs, patch. simpl.
    by destruct (body_inventory_name req), (body_description req). }
  by rewrite Hsame.
Qed.

(** Every handler keeps each photo reference the name of a stored file, no
    two records sharing one; and records and photo directory stay in full
    agreement, with no unreferenced file, on every request that is
    accepted and on every request without a photo part.  The name drawn
    for an upload is taken to be fresh. *)
Theorem handlers_keep_photos_referenced req st :
  upload_fresh req st ->
  (refs_sound st ->
     (forall res st', post_register req st = Some (res, st') -> refs_sound st')
     /\ refs_sound (snd (put_photo req st))
     /\ refs_sound (snd (delete_item req st))
     /\ refs_sound (snd (put_item req st)))
  /\ (consistent st ->
        (forall res st', post_register req st = Some (res, st') ->
           status res = 201 \/ photo_part req = None -> consistent st')
        /\ (status (fst (put_photo req st)) = 200 \/ photo_part req = None ->
              consistent (snd (put_photo req st)))
        /\ consistent (snd (delete_item req st))
        /\ consistent (snd (put_item req st))).
Proof.
  intros Hfresh. split.
  - intros Hs. split; [|split; [|split]].
    + intros res st' Hpost. by apply (post_register_refs req st res st').
    + by apply put_photo_refs.
    + by apply delete_item_refs.
    + by apply put_item_refs.
  - intros Hc. split; [|split; [|split]].
    + intros res st' Hpost Hok. by apply (post_register_refs req st res st').
    + intros Hok. by apply put_photo_refs.
    + by apply delete_item_refs.
    + by apply put_item_refs.
Qed.

(** C1, on the code.  A request with a photo part that the handler turns
    down leaves the uploaded file in the photo directory with no record
    referring to it: [POST /register] with a blank name (400) and
    [PUT /inventory/:id/photo] for an id that no record carries (404).  The
    records are as before, and the state after the request has a stored
    file that no record references. *)
Theorem rejected_upload_breaks_no_orphans req st data :
  photo_part req = Some data -> fresh_name req st ->
  (forall s, body_inventory_name req = Some (JStr s) -> JS.blank s = true ->
     exists st',
       post_register req st =
         Some (respond 400 (json_error "inventory_name is required"), st')
       /\ inventory st' = inventory st
       /\ photos st' !! multer_name req = Some data
       /\ ~ no_orphan_invariant st')
  /\ (findItem (inventory st) (params_id req) = None ->
       exists st',
         put_photo req st = (respond 404 (json_error "Not found"), st')
         /\ inventory st' = inventory st
         /\ photos st' !! multer_name req = Some data
         /\ ~ no_orphan_invariant st').
Proof.
  intros Hdata (Hname & Hnew & Hunref).
  set (st1 := {| inventory := inventory st;
                 photos := <[multer_name req := data]> (photos st);
                 db_file := db_file st |}).
  assert (Hup : upload_single req st = (Some (multer_name req), st1)).
  { unfold upload_single. by rewrite Hdata. }
  assert (Horphan : ~ no_orphan_invariant st1).
  { intros [_ Horph].
    destruct (Horph (multer_name req)) as (i & Hi & Hr).
    - simpl. rewrite lookup_insert_eq. eauto.
    - by eapply Hunref. }
  split.
  - intros s Hs Hblank. exists st1. split; [|split; [done|split; [|done]]].
    + rewrite (post_register_blank req st s Hs Hblank), Hup. done.
    + apply lookup_insert_eq.
  - intros Hfind. exists st1. split; [|split; [done|split; [|done]]].
    + unfold put_photo, put_photo_handler. rewrite Hup. simpl.
      rewrite Hfind. done.
    + apply lookup_insert_eq.
Qed.

(** ** The ids stay unique numerals *)

Lemma ids_wellformed_numeric inv :
  ids_wellformed inv -> exists ns, ids_numeric inv ns.
Proof.
  intros [_ Hall]. unfold ids_numeric.
  destruct (mapM_is_Some_2 (fun i => JS.Number (id i)) inv) as [ns Hns]; eauto.
Qed.





(** ** Routing, and what every request keeps *)

Lemma handle_answered method r req st out :
  handle method r req st = Some out -> answered method r req st out.
Proof.
  unfold handle, guard. destruct r; simpl.
  - destruct (String.eqb method "POST") eqn:E; simpl.
    + apply String.eqb_eq in E. intros H. by apply answered_register.
    + intros [= <-]. apply answered_405; [done|]. simpl. by rewrite E.
  - destruct (String.eqb method "GET") eqn:E; simpl.
    + apply String.eqb_eq in E. intros [= <-]. by apply answered_list.
    + intros [= <-]. apply answered_405; [done|]. simpl. by rewrite E.
  - destruct (String.eqb method "GET") eqn:E1; simpl.
    { apply String.eqb_eq in E1. intros [= <-]. by apply answered_get. }
    destruct (String.eqb method "PUT") eqn:E2; simpl.
    { apply String.eqb_eq in E2. intros [= <-]. by apply answered_put. }
    destruct (String.eqb method "DELETE") eqn:E3; simpl.
    { apply String.eqb_eq in E3. intros [= <-]. by apply answered_delete. }
    intros [= <-]. apply answered_405; [done|]. simpl. by rewrite E1, E2, E3.
  - destruct (String.eqb method "GET") eqn:E1; simpl.
    { apply String.eqb_eq in E1. intros [= <-]. by apply answered_get_photo. }
    destruct (String.eqb method "PUT") eqn:E2; simpl.
    { apply String.eqb_eq in E2. intros [= <-]. by apply answered_put_photo. }
    intros [= <-]. apply answered_405; [done|]. simpl. by rewrite E1, E2.
  - intros [= <-]. by apply answered_no_route.
Qed.

(** No handler answers 405. *)
Lemma post_register_status req st res st' :
  post_register req st = Some (res, st') ->
  status res = 201 \/ status res = 400 \/ status res = 500.
Proof.
  unfold post_register. destruct (upload_single req st) as [file st1].
  destruct (body_inventory_name req) as [name|];
    destruct (name_missing _) as [[|]|e]; simpl;
    try (intros [= <- <-]; simpl; auto).
  destruct (genId (inventory st1)) as [new_id|]; simpl; [|done].
  intros [= <- <-]. simpl. auto.
Qed.

Lemma put_item_status req st :
  status (fst (put_item req st)) = 200 \/ status (fst (put_item req st)) = 404.
Proof. unfold put_item. destruct (findItem _ _) as [[pos i]|]; simpl; auto. Qed.

Lemma get_item_status req st :
  status (fst (get_item req st)) = 200 \/ status (fst (get_item req st)) = 404.
Proof. unfold get_item. destruct (findItem _ _) as [[pos i]|]; simpl; auto. Qed.

Lemma delete_item_status req st :
  status (fst (delete_item req st)) = 200 \/ status (fst (delete_item req st)) = 404.
Proof. unfold delete_item. destruct (findItem _ _) as [[pos i]|]; simpl; auto. Qed.

Lemma get_photo_status req st :
  status (fst (get_photo req st)) = 200 \/ status (fst (get_photo req st)) = 404.
Proof.
  unfold get_photo. destruct (findItem _ _) as [[pos i]|]; simpl; auto.
  destruct (photoFilename i) as [name|]; simpl; auto.
  destruct (negb _); simpl; auto.
  destruct (photos st !! name); simpl; auto.
Qed.

Lemma put_photo_status req st :
  status (fst (put_photo req st)) = 200
  \/ status (fst (put_photo req st)) = 400
  \/ status (fst (put_photo req st)) = 404.
Proof.
  unfold put_photo, put_photo_handler.
  destruct (upload_single req st) as [file st1].
  destruct (findItem _ _) as [[pos i]|]; simpl; auto.
  destruct file; simpl; auto.
Qed.

Lemma not_405 code (res : response) (P Q : Prop) :
  code <> 405 -> status res = code -> (P -> False) ->
  (status res = 405 <-> P) /\ (status res = 405 -> Q).
Proof. intros Hcode E Habs. rewrite E. split; [split|]; intros; tauto. Qed.

(** X1.  A request is answered 405 exactly when its path matches a route
    and its method is not among those the route lists; the answer is
    ['Method not allowed'] and the state is untouched: the guard runs
    before the upload middleware, so a photo part of such a request is not
    stored. *)
Theorem guard_405_iff method r req st res st' :
  handle method r req st = Some (res, st') ->
  (status res = 405 <->
   r <> no_route /\ guard (allowed_methods r) method = false)
  /\ (status res = 405 ->
      res = respond 405 (send_text "Method not allowed") /\ st' = st).
Proof.
  clear JSON_parse.
  intros H. apply handle_answered in H.
  inversion H as [Hr Hg Hout|Hr Hout|out Hr Hm Hpost Hout|Hr Hm Hout|Hr Hm Hout
                 |Hr Hm Hout|Hr Hm Hout|Hr Hm Hout|Hr Hm Hout].
  - split; [tauto|done].
  - apply (not_405 404); [done|done|]. by intros [? _].
  - subst out r method.
    destruct (post_register_status _ _ _ _ Hpost) as [E|[E|E]];
      eapply not_405; try exact E; try done; by intros [_ ?].
  - subst r method. apply (not_405 200); [done|done|]. by intros [_ ?].
  - subst r method. pose proof (get_item_status req st) as E.
    rewrite Hout in E. simpl in E.
    destruct E as [E|E]; eapply not_405; try exact E; try done; by intros [_ ?].
  - subst r method. pose proof (put_item_status req st) as E.
    rewrite Hout in E. simpl in E.
    destruct E as [E|E]; eapply not_405; try exact E; try done; by intros [_ ?].
  - subst r method. pose proof (delete_item_status req st) as E.
    rewrite Hout in E. simpl in E.
    destruct E as [E|E]; eapply not_405; try exact E; try done; by intros [_ ?].
  - subst r method. pose proof (get_photo_status req st) as E.
    rewrite Hout in E. simpl in E.
    destruct E as [E|E]; eapply not_405; try exact E; try done; by intros [_ ?].
  - subst r method. pose proof (put_photo_status req st) as E.
    rewrite Hout in E. simpl in E.
    destruct E as [E|[E|E]]; eapply not_405; try exact E; try done; by intros [_ ?].
Qed.

Lemma upload_single_effect req st :
  snd (upload_single req st) = st
  \/ exists data, photo_part req = Some data
       /\ snd (upload_single req st) =
            {| inventory := inventory st;
               photos := <[multer_name req := data]> (photos st);
               db_file := db_file st |}.
Proof.
  unfold upload_single. destruct (photo_part req) as [data|]; simpl; eauto.
Qed.

(** What each writing handler does by status: a success status comes with
    a written snapshot, any other status with the state the upload
    middleware left (the state before, for the handlers without one). *)
Lemma post_register_by_status req st res st' :
  post_register req st = Some (res, st') ->
  (status res = 201 /\ synced st')
  \/ (status res <> 201 /\ status res <> 200 /\ st' = snd (upload_single req st)).
Proof.
  unfold post_register. destruct (upload_single req st) as [file st1]. simpl.
  destruct (body_inventory_name req) as [name|];
    destruct (name_missing _) as [[|]|e]; simpl;
    try (intros [= <- <-]; right; by simpl).
  destruct (genId (inventory st1)) as [new_id|]; simpl; [|done].
  intros [= <- <-]. left. done.
Qed.

Lemma put_item_by_status req st :
  (status (fst (put_item req st)) = 200 /\ synced (snd (put_item req st)))
  \/ (status (fst (put_item req st)) = 404 /\ snd (put_item req st) = st).
Proof.
  unfold put_item. destruct (findItem _ _) as [[pos i]|]; simpl;
    [by left | by right].
Qed.

Lemma delete_item_by_status req st :
  (status (fst (delete_item req st)) = 200 /\ synced (snd (delete_item req st)))
  \/ (status (fst (delete_item req st)) = 404 /\ snd (delete_item req st) = st).
Proof.
  unfold delete_item. destruct (findItem _ _) as [[pos i]|]; simpl;
    [by left | by right].
Qed.

Lemma put_photo_by_status req st :
  (status (fst (put_photo req st)) = 200 /\ synced (snd (put_photo req st)))
  \/ (status (fst (put_photo req st)) <> 200
      /\ status (fst (put_photo req st)) <> 201
      /\ snd (put_photo req st) = snd (upload_single req st)).
Proof.
  unfold put_photo, put_photo_handler.
  destruct (upload_single req st) as [file st1]. simpl.
  destruct (findItem _ _) as [[pos i]|]; simpl; [|by right].
  destruct file; simpl; [by left | by right].
Qed.

Lemma get_photo_state req st : snd (get_photo req st) = st.
Proof.
  unfold get_photo. destruct (findItem _ _) as [[pos i]|]; [|done].
  destruct (photoFilename i) as [name|]; [|done]. simpl.
  destruct (negb _); [|done]. by destruct (photos st !! name).
Qed.

Lemma get_item_state req st : snd (get_item req st) = st.
Proof. unfold get_item. by destruct (findItem _ _) as [[pos i]|]. Qed.

(** X2.  A request that is not answered 200 or 201 leaves the state as it
    was, with one exception: on [POST /register] and
    [PUT /inventory/:id/photo] the file of its photo part stays in the photo
    directory.  Collection and snapshot file are never touched by a request
    that fails. *)
Theorem failed_request_effect method r req st res st' :
  handle method r req st = Some (res, st') -> ~ accepted res ->
  st' = st
  \/ exists data,
       photo_part req = Some data
       /\ (r = route_register /\ method = "POST"
           \/ r = route_photo /\ method = "PUT")
       /\ st' = {| inventory := inventory st;
                   photos := <[multer_name req := data]> (photos st);
                   db_file := db_file st |}.
Proof.
  clear JSON_parse.
  intros H Hrej. apply handle_answered in H. unfold accepted in Hrej.
  inversion H as [Hr Hg Hout|Hr Hout|out Hr Hm Hpost Hout|Hr Hm Hout|Hr Hm Hout
                 |Hr Hm Hout|Hr Hm Hout|Hr Hm Hout|Hr Hm Hout].
  - by left.
  - by left.
  - subst out.
    destruct (post_register_by_status _ _ _ _ Hpost) as [[E _]|(_ & _ & ->)];
      [tauto|].
    destruct (upload_single_effect req st) as [->|(data & Hd & ->)];
      [by left|]. right. exists data. auto.
  - by left.
  - left. pose proof (get_item_state req st) as E. by rewrite Hout in E.
  - destruct (put_item_by_status req st) as [[E _]|[_ E]];
      rewrite Hout in E; simpl in E; [tauto | by left].
  - destruct (delete_item_by_status req st) as [[E _]|[_ E]];
      rewrite Hout in E; simpl in E; [tauto | by left].
  - left. pose proof (get_photo_state req st) as E. by rewrite Hout in E.
  - destruct (put_photo_by_status req st) as [[E _]|(_ & _ & E)];
      rewrite Hout in E; simpl in E; [tauto|]. subst st'.
    destruct (upload_single_effect req st) as [->|(data & Hd & ->)];
      [by left|]. right. exists data. auto.
Qed.

(** X3.  A [GET] request never changes the state, and after every other
    request answered 200 or 201 the snapshot file holds the serialization
    of the collection as it is then in memory. *)
Theorem accepted_writes_are_persisted method r req st res st' :
  handle method r req st = Some (res, st') ->
  (method = "GET" -> st' = st)
  /\ (accepted res -> method <> "GET" -> synced st').
Proof.
  intros H. apply handle_answered in H. unfold accepted.
  inversion H as [Hr Hg Hout|Hr Hout|out Hr Hm Hpost Hout|Hr Hm Hout|Hr Hm Hout
                 |Hr Hm Hout|Hr Hm Hout|Hr Hm Hout|Hr Hm Hout].
  - split; [done|]. simpl. intros [?|?]; done.
  - split; [done|]. simpl. intros [?|?]; done.
  - subst out method. split; [done|]. intros Hok _.
    destruct (post_register_by_status _ _ _ _ Hpost) as [[_ ?]|(? & ? & _)];
      [done | tauto].
  - split; [done|done].
  - split; [|done]. intros _.
    pose proof (get_item_state req st) as E. by rewrite Hout in E.
  - subst method. split; [done|]. intros Hok _.
    destruct (put_item_by_status req st) as [[_ E]|[E _]];
      rewrite Hout in E; simpl in E; [done|]. rewrite E in Hok.
    destruct Hok; done.
  - subst method. split; [done|]. intros Hok _.
    destruct (delete_item_by_status req st) as [[_ E]|[E _]];
      rewrite Hout in E; simpl in E; [done|]. rewrite E in Hok.
    destruct Hok; done.
  - split; [|done]. intros _.
    pose proof (get_photo_state req st) as E. by rewrite Hout in E.
  - subst method. split; [done|]. intros Hok _.
    destruct (put_photo_by_status req st) as [[_ E]|(E1 & E2 & _)];
      rewrite Hout in *; simpl in *; [done | tauto].
Qed.



(** ** Registration composed with reads and deletion *)

Lemma findItem_snoc_new inv i :
  id i ∉ map id inv ->
  findItem (inv ++ [i])%list (id i) = Some (length inv, i).
Proof.
  intros Hnew. unfold findItem.
  rewrite list_find_app_r.
  - simpl. rewrite decide_True by done. done.
  - apply list_find_None, Forall_forall. intros y Hy Heq.
    apply Hnew. rewrite <- Heq. apply list_elem_of_In, in_map.
    by apply list_elem_of_In.
Qed.

Lemma delete_snoc_last {A} (l : list A) x : delete (length l) (l ++ [x])%list = l.
Proof. induction l as [|y l IH]; simpl; [done|]. by rewrite IH. Qed.

(** An accepted registration, read backwards: the id is the one [genId]
    drew, the record is appended, the snapshot is written. *)
Lemma post_register_accepted_inv req st res st' :
  post_register req st = Some (res, st') -> status res = 201 ->
  exists new_id,
    genId (inventory st) = Some new_id
    /\ valid_name req
    /\ res = respond 201 (json_item (dto req (registered req new_id)))
    /\ st' = {| inventory := (inventory st ++ [registered req new_id])%list;
                photos := photos (snd (upload_single req st));
                db_file := Some (JSON_stringify
                                   (inventory st ++ [registered req new_id])%list) |}.
Proof.
  unfold post_register.
  pose proof (upload_single_inventory req st) as Hinv.
  pose proof (upload_single_file req st) as Hfile.
  destruct (upload_single req st) as [file st1]. simpl in Hinv, Hfile.
  destruct (body_inventory_name req) as [name|] eqn:Hname;
    [|by intros [= <- <-]].
  destruct (name_missing (Some name)) as [[|]|e] eqn:Hcheck;
    try (by intros [= <- <-]).
  rewrite Hinv.
  destruct (genId (inventory st)) as [new_id|]; simpl; [|done].
  intros [= <- <-] _. exists new_id. split; [done|]. split.
  - destruct name as [|b|z|s|els|fs].
    + simpl in Hcheck. discriminate.
    + destruct b; simpl in Hcheck; discriminate.
    + simpl in Hcheck. destruct (z =? 0)%Z; simpl in Hcheck; discriminate.
    + exists s. split; [done|].
      rewrite name_missing_string in Hcheck. by injection Hcheck.
    + simpl in Hcheck. discriminate.
    + simpl in Hcheck. discriminate.
  - unfold registered, saveInventory. rewrite Hname, Hfile. simpl. done.
Qed.

(** X5.  The record that an accepted [POST /register] answers with is the
    record that [GET /inventory/:id] answers for the id it was given, from
    the same protocol and host: same id, name as sent, description as sent
    or empty, same photo URL. *)
Theorem register_then_get req st res st' :
  ids_wellformed (inventory st) ->
  post_register req st = Some (res, st') -> status res = 201 ->
  exists i,
    res = respond 201 (json_item (dto req i))
    /\ inventory_name i = default JNull (body_inventory_name req)
    /\ description i = default (JStr "") (body_description req)
    /\ forall req', params_id req' = id i ->
         protocol req' = protocol req -> host req' = host req ->
         get_item req' st' = (respond 200 (json_item (dto req i)), st').
Proof.
  intros Hw Hpost Hstatus.
  destruct (post_register_accepted_inv _ _ _ _ Hpost Hstatus)
    as (new_id & Hgen & _ & -> & ->).
  destruct (ids_wellformed_numeric _ Hw) as [ns Hns].
  exists (registered req new_id). split; [done|]. split; [done|]. split; [done|].
  intros req' Hid Hprot Hhost. unfold get_item. simpl.
  rewrite Hid. change new_id with (id (registered req new_id)) at 2.
  rewrite findItem_snoc_new; [|by eapply genId_fresh].
  unfold dto, photoUrl. by rewrite Hprot, Hhost.
Qed.

(** X6.  After an accepted [POST /register], [GET /inventory/:id/photo]
    for the new id answers exactly the bytes of the photo part sent with the
    registration, and 404 when none was sent. *)
Theorem register_then_get_photo req st res st' k :
  ids_wellformed (inventory st) -> multer_name req <> "" ->
  post_register req st = Some (res, st') -> status res = 201 ->
  assigned_id res = Some k ->
  forall req', params_id req' = k ->
    get_photo req' st' =
      match photo_part req with
      | Some data => (respond 200 (send_file "image/jpeg" data), st')
      | None => (respond 404 (send_text "Not found"), st')
      end.
Proof.
  intros Hw Hname Hpost Hstatus Hk req' Hid.
  destruct (post_register_accepted_inv _ _ _ _ Hpost Hstatus)
    as (new_id & Hgen & _ & -> & ->).
  destruct (ids_wellformed_numeric _ Hw) as [ns Hns].
  simpl in Hk. injection Hk as <-.
  unfold get_photo. simpl. rewrite Hid.
  change new_id with (id (registered req new_id)) at 1.
  rewrite findItem_snoc_new; [|by eapply genId_fresh].
  unfold upload_single. simpl.
  destruct (photo_part req) as [data|]; simpl; [|done].
  destruct (String.eqb (multer_name req) "") eqn:E;
    [by apply String.eqb_eq in E|]. simpl.
  by rewrite lookup_insert_eq.
Qed.

(** X7.  Ids are reused: when the record registered last is deleted, the
    next accepted registration is given the id the deleted record had. *)
Theorem deleted_last_id_is_reused req1 req2 reqd st res1 st1 k :
  ids_wellformed (inventory st) ->
  post_register req1 st = Some (res1, st1) -> status res1 = 201 ->
  assigned_id res1 = Some k ->
  params_id reqd = k -> valid_name req2 ->
  exists st2 res2 st3,
    delete_item reqd st1 = (respond 200 (json_message "Deleted"), st2)
    /\ inventory st2 = inventory st
    /\ post_register req2 st2 = Some (res2, st3)
    /\ status res2 = 201
    /\ assigned_id res2 = Some k.
Proof.
  intros Hw Hpost Hstatus Hk Hid Hvalid.
  destruct (post_register_accepted_inv _ _ _ _ Hpost Hstatus)
    as (new_id & Hgen & _ & -> & ->).
  destruct (ids_wellformed_numeric _ Hw) as [ns Hns].
  simpl in Hk. injection Hk as <-.
  assert (Hfind : findItem (inventory st ++ [registered req1 new_id])%list
                    (params_id reqd)
                  = Some (length (inventory st), registered req1 new_id)).
  { rewrite Hid. change new_id with (id (registered req1 new_id)) at 2.
    apply findItem_snoc_new. by eapply genId_fresh. }
  eexists. exists (respond 201 (json_item (dto req2 (registered req2 new_id)))).
  eexists. split; [|split; [|split; [|split; [reflexivity|reflexivity]]]].
  - unfold delete_item. simpl. rewrite Hfind. reflexivity.
  - simpl. rewrite unlink_if_set_inventory. simpl. apply delete_snoc_last.
  - assert (Hle : JS.Math_max0 ns + 1 <= JS.MAX_EXACT).
    { unfold genId in Hgen. rewrite Hns in Hgen. simpl in Hgen.
      destruct (JS.Math_max0 ns + 1 <=? JS.MAX_EXACT)%Z eqn:E; [lia|done]. }
    assert (Hnew : new_id = JS.String (JS.Math_max0 ns + 1)).
    { rewrite (genId_numeric _ _ Hns Hle) in Hgen. by injection Hgen. }
    rewrite Hnew.
    apply post_register_valid; [done| |done].
    simpl. rewrite unlink_if_set_inventory. simpl.
    by rewrite delete_snoc_last.
Qed.

(** ** Names that are not strings, photo URLs *)

Lemma upload_single_db_file req st :
  db_file (snd (upload_single req st)) = db_file st.
Proof. unfold upload_single. by destruct (photo_part req). Qed.

(** X8.  [POST /register] accepts a name only if it is a string: with the
    name missing, [null], [false] or [0] the answer is 400; with [true], a
    number other than [0], an array or an object, the call of [trim] throws
    and the answer is 500.  In both cases no record is added and the
    snapshot file is not written. *)
Theorem register_name_not_a_string req st :
  (forall s, body_inventory_name req <> Some (JStr s)) ->
  exists res st',
    post_register req st = Some (res, st')
    /\ status res = (if JS.truthy (body_inventory_name req) then 500 else 400)
    /\ inventory st' = inventory st
    /\ db_file st' = db_file st.
Proof.
  intros Hnot. unfold post_register.
  pose proof (upload_single_inventory req st) as Hinv.
  pose proof (upload_single_db_file req st) as Hdb.
  destruct (upload_single req st) as [file st1]. simpl in Hinv, Hdb.
  destruct (body_inventory_name req) as [[|b|z|s|els|fs]|] eqn:Hname; simpl.
  - eexists _, st1. by repeat split.
  - destruct b; simpl; eexists _, st1; by repeat split.
  - destruct (z =? 0)%Z; simpl; eexists _, st1; by repeat split.
  - by destruct (Hnot s).
  - eexists _, st1. by repeat split.
  - eexists _, st1. by repeat split.
  - eexists _, st1. by repeat split.
Qed.

(** With unique ids, looking up the id of a record of the collection finds
    that record. *)
Lemma ids_unique_elem inv i i' :
  ids_unique inv -> i ∈ inv -> i' ∈ inv -> id i = id i' -> i = i'.
Proof.
  unfold ids_unique. change (map id inv) with (id <$> inv).
  intros Hu [a Ha]%list_elem_of_lookup [b Hb]%list_elem_of_lookup Heq.
  assert (a = b) as ->; [|congruence].
  eapply NoDup_lookup; [exact Hu| |].
  - by rewrite list_lookup_fmap, Ha.
  - by rewrite list_lookup_fmap, Hb, Heq.
Qed.

Lemma findItem_unique inv i :
  ids_unique inv -> i ∈ inv -> exists pos, findItem inv (id i) = Some (pos, i).
Proof.
  intros Hu Hi. destruct (findItem inv (id i)) as [[pos y]|] eqn:E.
  - exists pos. f_equal. f_equal. symmetry.
    apply findItem_Some in E as (Hy & Hid & _).
    eapply ids_unique_elem; eauto. apply list_elem_of_lookup. eauto.
  - exfalso. by eapply findItem_None.
Qed.

(** X9.  With unique ids and every photo reference naming a stored file,
    the photo URL of a record's view tells whether the photo can be
    fetched: it is [null] exactly when [GET /inventory/:id/photo] for the
    record's id answers 404, and otherwise it is
    [protocol://host/inventory/<id>/photo] and the request answers 200
    with the bytes of the record's file. *)
Theorem photo_url_iff_photo_served req st i :
  ids_unique (inventory st) -> refs_resolve st -> i ∈ inventory st ->
  forall req', params_id req' = id i ->
    (photo_url (dto req i) = None <-> status (fst (get_photo req' st)) = 404)
    /\ (forall url, photo_url (dto req i) = Some url ->
          url = protocol req ++ "://" ++ host req ++ "/inventory/" ++ id i ++ "/photo"
          /\ exists name data,
               photoFilename i = Some name
               /\ photos st !! name = Some data
               /\ get_photo req' st =
                    (respond 200 (send_file "image/jpeg" data), st)).
Proof.
  intros Hu Hres Hi req' Hid.
  destruct (findItem_unique _ _ Hu Hi) as [pos Hfind].
  unfold get_photo, dto, photoUrl. simpl. rewrite Hid, Hfind.
  destruct (photoFilename i) as [name|] eqn:Href; simpl; [|by split].
  destruct (String.eqb name "") eqn:E; simpl; [by split|].
  destruct (Hres i name Hi Href) as [data Hdata]. rewrite Hdata. simpl.
  split; [by split|]. intros url [= <-]. split; [done|]. eauto.
Qed.

(** ** The effect of a request, record by record *)

Lemma unlink_if_set_frame f st1 st2 :
  photos st1 = photos st2 ->
  photos (unlink_if_set f st1) = photos (unlink_if_set f st2).
Proof.
  intros E. unfold unlink_if_set. destruct f as [name|]; [|done].
  destruct (JS.truthy_name _); [|done]. simpl. by rewrite E.
Qed.

Lemma state_eta (st : state) :
  st = {| inventory := inventory st; photos := photos st; db_file := db_file st |}.
Proof. by destruct st. Qed.

Lemma handle_effect method r req st res st' :
  handle method r req st = Some (res, st') -> effect req st st'.
Proof.
  intros H. apply handle_answered in H.
  inversion H as [Hr Hg Hout|Hr Hout|out Hr Hm Hpost Hout|Hr Hm Hout|Hr Hm Hout
                 |Hr Hm Hout|Hr Hm Hout|Hr Hm Hout|Hr Hm Hout].
  - apply effect_none.
  - apply effect_none.
  - subst out. destruct (post_register_by_status _ _ _ _ Hpost)
      as [[E _]|(_ & _ & ->)].
    + destruct (post_register_accepted_inv _ _ _ _ Hpost E)
        as (new_id & Hgen & _ & _ & ->).
      by apply effect_append.
    + unfold upload_single. destruct (photo_part req) as [data|] eqn:Hd; simpl.
      * by apply effect_upload.
      * apply effect_none.
  - apply effect_none.
  - pose proof (get_item_state req st) as E. rewrite Hout in E. simpl in E.
    subst st'. apply effect_none.
  - unfold put_item in Hout.
    destruct (findItem _ _) as [[pos i]|] eqn:Hfind; injection Hout as <- <-.
    + exact (effect_patch req st pos i Hfind).
    + apply effect_none.
  - unfold delete_item in Hout.
    destruct (findItem _ _) as [[pos i]|] eqn:Hfind; injection Hout as <- <-.
    + unfold saveInventory. simpl. rewrite !unlink_if_set_inventory. simpl.
      rewrite (unlink_if_set_frame _ _ st) by done.
      exact (effect_delete req st pos i Hfind).
    + apply effect_none.
  - pose proof (get_photo_state req st) as E. rewrite Hout in E. simpl in E.
    subst st'. apply effect_none.
  - unfold put_photo, upload_single, put_photo_handler in Hout.
    destruct (photo_part req) as [data|] eqn:Hd; simpl in Hout;
      destruct (findItem _ _) as [[pos i]|] eqn:Hfind; injection Hout as <- <-.
    + unfold saveInventory. simpl. rewrite !unlink_if_set_inventory. simpl.
      exact (effect_photo req st pos i data Hfind Hd).
    + by apply effect_upload.
    + apply effect_none.
    + apply effect_none.
Qed.

Lemma elem_of_insert_inv {A} (l : list A) pos x y :
  y ∈ <[pos := x]> l -> y = x \/ y ∈ l.
Proof.
  intros [j Hj]%list_elem_of_lookup.
  destruct (decide (j = pos)) as [->|Hne].
  - destruct (decide (pos < length l)%nat) as [Hlt|Hge].
    + rewrite list_lookup_insert_eq in Hj by done. left. congruence.
    + rewrite list_insert_ge in Hj by lia. right.
      apply list_elem_of_lookup. eauto.
  - rewrite list_lookup_insert_ne in Hj by done. right.
    apply list_elem_of_lookup. eauto.
Qed.

(** Two records with different ids do not share a photo file. *)
Lemma refs_distinct_elem inv i i' name :
  NoDup (omap photoFilename inv) -> i ∈ inv -> i' ∈ inv ->
  photoFilename i = Some name -> photoFilename i' = Some name ->
  id i = id i'.
Proof.
  induction inv as [|x l IH]; intros Hnd Hi Hi' Hr Hr'; [by inversion Hi|].
  simpl in Hnd.
  assert (Htail : NoDup (omap photoFilename l)).
  { destruct (photoFilename x); [by apply NoDup_cons in Hnd as [_ ?]|done]. }
  assert (Hhead : forall y, y ∈ l -> photoFilename y = Some name ->
                    photoFilename x = Some name -> False).
  { intros y Hy Hyr Hxr. rewrite Hxr in Hnd. apply NoDup_cons in Hnd as [Hnot _].
    apply Hnot, list_elem_of_omap. eauto. }
  apply elem_of_cons in Hi as [->|Hi]; apply elem_of_cons in Hi' as [->|Hi'].
  - done.
  - by destruct (Hhead i' Hi' Hr' Hr).
  - by destruct (Hhead i Hi Hr Hr').
  - by apply IH.
Qed.

Lemma findItem_cons x l k :
  findItem (x :: l) k =
  if decide (id x = k) then Some (0%nat, x)
  else prod_map S (fun y => y) <$> findItem l k.
Proof. unfold findItem. simpl. by destruct (decide (id x = k)). Qed.

(** Removing a record with another id does not change which record a
    lookup finds. *)
Lemma findItem_delete_other inv pos x k :
  inv !! pos = Some x -> id x <> k ->
  snd <$> findItem (delete pos inv) k = snd <$> findItem inv k.
Proof.
  revert pos. induction inv as [|y l IH]; intros pos Hpos Hne; [done|].
  destruct pos as [|pos]; simpl in Hpos.
  - injection Hpos as ->. change (delete 0%nat (x :: l)) with l.
    rewrite (findItem_cons x l k), decide_False by done.
    by destruct (findItem l k) as [[j z]|].
  - change (delete (S pos) (y :: l)) with (y :: delete pos l).
    rewrite !findItem_cons. destruct (decide (id y = k)); [done|].
    specialize (IH pos Hpos Hne).
    destruct (findItem (delete pos l) k) as [[j z]|],
             (findItem l k) as [[j' z']|]; simpl in *; congruence.
Qed.

Lemma findItem_app_present inv l k :
  is_Some (findItem inv k) -> findItem (inv ++ l)%list k = findItem inv k.
Proof.
  intros [[pos i] H]. rewrite H. unfold findItem in *. by apply list_find_app_l.
Qed.

(** The reads of an id answer the same when the lookups find the same
    record and its file, if it has one, is as before. *)
Lemma same_answers_intro st st' k :
  snd <$> findItem (inventory st') k = snd <$> findItem (inventory st) k ->
  (forall pos i name,
     findItem (inventory st) k = Some (pos, i) ->
     photoFilename i = Some name ->
     photos st' !! name = photos st !! name) ->
  same_answers st st' k.
Proof.
  intros Hfind Hfile req' <-. unfold get_item, get_photo.
  destruct (findItem (inventory st') (params_id req')) as [[j' z']|],
           (findItem (inventory st) (params_id req')) as [[j z]|] eqn:E;
    simpl in Hfind; try done. injection Hfind as ->.
  split; [done|].
  destruct (photoFilename z) as [name|] eqn:Href; [|done].
  rewrite (Hfile j z name eq_refl Href).
  destruct (JS.truthy_name _); [|done]. by destruct (photos st !! name).
Qed.

Lemma unlink_if_set_lookup_ne f st name :
  f <> Some name ->
  photos (unlink_if_set f st) !! name = photos st !! name.
Proof.
  intros Hne. unfold unlink_if_set. destruct f as [old|]; [|done].
  destruct (JS.truthy_name _); [|done]. simpl.
  apply lookup_delete_ne. congruence.
Qed.

Lemma upload_single_lookup_ne req st name :
  upload_fresh req st -> name <> multer_name req \/ photo_part req = None ->
  photos (snd (upload_single req st)) !! name = photos st !! name.
Proof.
  unfold upload_single, upload_fresh.
  destruct (photo_part req) as [data|]; [|done].
  intros _ [Hne|?]; [|done]. simpl. by apply lookup_insert_ne.
Qed.

Lemma post_register_effect req st res st' :
  post_register req st = Some (res, st') ->
  st' = snd (upload_single req st)
  \/ exists new_id,
       genId (inventory st) = Some new_id
       /\ st' = {| inventory := (inventory st ++ [registered req new_id])%list;
                   photos := photos (snd (upload_single req st));
                   db_file := Some (JSON_stringify
                                      (inventory st ++ [registered req new_id])%list) |}.
Proof.
  intros Hpost.
  destruct (post_register_by_status _ _ _ _ Hpost) as [[E _]|(_ & _ & ->)];
    [|by left].
  destruct (post_register_accepted_inv _ _ _ _ Hpost E)
    as (new_id & Hgen & _ & _ & ->). right. eauto.
Qed.

(** A record found under [k] does not refer to the name drawn for a fresh
    upload. *)
Lemma found_ref_not_drawn req st k pos i name :
  upload_fresh req st -> findItem (inventory st) k = Some (pos, i) ->
  photoFilename i = Some name ->
  name <> multer_name req \/ photo_part req = None.
Proof.
  unfold upload_fresh. intros Hf Hfind Href.
  destruct (photo_part req) as [data|]; [|by right]. left.
  destruct Hf as (_ & _ & Hunref). intros ->.
  eapply Hunref; [|exact Href]. by eapply findItem_elem_of.
Qed.

Lemma same_answers_uploaded req st k :
  upload_fresh req st -> same_answers st (snd (upload_single req st)) k.
Proof.
  intros Hf. apply same_answers_intro.
  - by rewrite upload_single_inventory.
  - intros pos i name Hfind Href. apply upload_single_lookup_ne; [done|].
    by eapply found_ref_not_drawn.
Qed.

Lemma same_answers_appended req st k new_id text :
  upload_fresh req st -> is_Some (findItem (inventory st) k) ->
  same_answers st
    {| inventory := (inventory st ++ [registered req new_id])%list;
       photos := photos (snd (upload_single req st));
       db_file := text |} k.
Proof.
  intros Hf Hpresent. apply same_answers_intro; simpl.
  - by rewrite findItem_app_present.
  - intros pos i name Hfind Href. apply upload_single_lookup_ne; [done|].
    by eapply found_ref_not_drawn.
Qed.

(** X12.  A request does not change what the reads answer for the records
    it does not address: after any request, [GET /inventory/:id] and
    [GET /inventory/:id/photo] answer as before for every id present in the
    collection other than the one the request names; a registration
    changes the answers for no id present.  The state is one the handlers
    build, and the name drawn for an upload is fresh. *)
Theorem other_records_answer_as_before method r req st res st' k :
  wellformed st -> upload_fresh req st ->
  handle method r req st = Some (res, st') ->
  is_Some (findItem (inventory st) k) ->
  k <> params_id req \/ r = route_register ->
  same_answers st st' k.
Proof.
  intros [Hids (Hres & Hdist & Htruthy)] Hf H Hpresent [Hk|Hr].
  - apply handle_effect in H.
    destruct H as [|data Hd|new_id Hgen|pos i Hfind|pos i Hfind|pos i data Hfind Hd].
    + by intros req' _.
    + pose proof (same_answers_uploaded req st k Hf) as Hs.
      unfold upload_single in Hs. by rewrite Hd in Hs.
    + by apply same_answers_appended.
    + apply same_answers_intro; simpl; [|done].
      f_equal. eapply findItem_insert_other; [exact Hfind| |done].
      unfold patch. by destruct (body_inventory_name req), (body_description req).
    + pose proof Hfind as (Hpos & Hid & _)%findItem_Some.
      apply same_answers_intro; simpl.
      * eapply findItem_delete_other; [exact Hpos|congruence].
      * intros j z name Hz Href. apply unlink_if_set_lookup_ne.
        intros Hold. apply Hk.
        pose proof Hz as (_ & Hzid & _)%findItem_Some.
        rewrite <- Hzid, <- Hid. symmetry.
        eapply (refs_distinct_elem (inventory st) i z name); try done.
        -- by eapply findItem_elem_of.
        -- by eapply findItem_elem_of.
    + pose proof Hfind as (Hpos & Hid & _)%findItem_Some.
      apply same_answers_intro; simpl.
      * f_equal. by eapply findItem_insert_other.
      * intros j z name Hz Href.
        rewrite unlink_if_set_lookup_ne.
        -- simpl. apply lookup_insert_ne. intros Heq.
           unfold upload_fresh in Hf. rewrite Hd in Hf.
           destruct Hf as (_ & _ & Hunref).
           eapply Hunref; [by eapply findItem_elem_of|]. by rewrite Href, Heq.
        -- intros Hold. apply Hk.
           pose proof Hz as (_ & Hzid & _)%findItem_Some.
           rewrite <- Hzid, <- Hid. symmetry.
           eapply (refs_distinct_elem (inventory st) i z name); try done.
           ++ by eapply findItem_elem_of.
           ++ by eapply findItem_elem_of.
  - subst r. apply handle_answered in H.
    inversion H as [Hr Hg Hout|Hr Hout|out Hr Hm Hpost Hout|Hr Hm Hout|Hr Hm Hout
                   |Hr Hm Hout|Hr Hm Hout|Hr Hm Hout|Hr Hm Hout]; try done.
    subst out.
    destruct (post_register_effect _ _ _ _ Hpost) as [->|(new_id & _ & ->)].
    + by apply same_answers_uploaded.
    + by apply same_answers_appended.
Qed.

(** X10.  No request takes a photo away from a record that stays: if a
    record has a photo reference before a request, the record with its id
    after the request, if there is one, has a photo reference too, the same
    one or the name drawn for the upload of the request.  The state is one
    the handlers build, and the name drawn for an upload is fresh. *)
Theorem photo_reference_never_cleared method r req st res st' i i' :
  wellformed st -> upload_fresh req st ->
  handle method r req st = Some (res, st') ->
  i ∈ inventory st -> JS.truthy_name (photoFilename i) = true ->
  i' ∈ inventory st' -> id i' = id i ->
  JS.truthy_name (photoFilename i') = true
  /\ (photoFilename i' = photoFilename i
      \/ photoFilename i' = Some (multer_name req)).
Proof.
  intros [[Hu Hnum] _] Hf H Hi Hphoto Hi' Hid.
  assert (Hsame : i' ∈ inventory st ->
            JS.truthy_name (photoFilename i') = true
            /\ (photoFilename i' = photoFilename i
                \/ photoFilename i' = Some (multer_name req))).
  { intros Hin. assert (i' = i) as ->; [|auto].
    by eapply ids_unique_elem. }
  apply handle_effect in H.
  destruct H as [|data Hd|new_id Hgen|pos i0 Hfind|pos i0 Hfind|pos i0 data Hfind Hd];
    simpl in Hi'.
  - auto.
  - auto.
  - apply elem_of_app in Hi' as [Hin|Hnew%list_elem_of_singleton]; [auto|].
    exfalso. subst i'. simpl in Hid.
    destruct (ids_wellformed_numeric _ (conj Hu Hnum)) as [ns Hns].
    eapply genId_fresh; [exact Hns|exact Hgen|].
    rewrite Hid. apply list_elem_of_In, in_map. by apply list_elem_of_In.
  - apply elem_of_insert_inv in Hi' as [->|Hin]; [|auto].
    assert (Hp : id (patch req i0) = id i0 /\
                 photoFilename (patch req i0) = photoFilename i0).
    { unfold patch.
      by destruct (body_inventory_name req), (body_description req). }
    destruct Hp as [Hpid Hpref]. rewrite Hpid in Hid.
    assert (i0 = i) as ->.
    { eapply ids_unique_elem; eauto. by eapply findItem_elem_of. }
    rewrite Hpref. auto.
  - apply list_elem_of_delete_inv in Hi'. auto.
  - apply elem_of_insert_inv in Hi' as [->|Hin]; [|auto]. simpl.
    unfold upload_fresh in Hf. rewrite Hd in Hf. destruct Hf as (Hname & _).
    split; [|by right].
    destruct (String.eqb (multer_name req) "") eqn:E; [|done].
    by apply String.eqb_eq in E.
Qed.

(** X11.  After [PUT /inventory/:id] on a record that exists,
    [GET /inventory/:id] for the same id, protocol and host answers the
    view that the [PUT] answered, and the photo of the record is served as
    before. *)
Theorem put_then_get req st pos i :
  findItem (inventory st) (params_id req) = Some (pos, i) ->
  forall req', params_id req' = params_id req ->
    (protocol req' = protocol req -> host req' = host req ->
     get_item req' (snd (put_item req st)) =
       (fst (put_item req st), snd (put_item req st)))
    /\ status (fst (put_item req st)) = 200
    /\ fst (get_photo req' (snd (put_item req st))) = fst (get_photo req' st).
Proof.
  intros Hfind req' Hid.
  assert (Hp : id (patch req i) = id i /\
               photoFilename (patch req i) = photoFilename i).
  { unfold patch. by destruct (body_inventory_name req), (body_description req). }
  destruct Hp as [Hpid Hpref].
  pose proof (findItem_insert _ _ _ _ (patch req i) Hfind Hpid) as Hnew.
  unfold put_item. rewrite Hfind. simpl. split; [|split; [done|]].
  - intros Hprot Hhost. unfold get_item. simpl. rewrite Hid, Hnew.
    unfold dto, photoUrl. by rewrite Hprot, Hhost.
  - unfold get_photo. simpl. rewrite Hid, Hnew, Hfind, Hpref.
    destruct (photoFilename i) as [name|]; [|done].
    destruct (negb _); [|done]. by destruct (photos st !! name).
Qed.

(** ** Unreferenced files, listing *)

(** X13.  A request that is answered 200 or 201, or that has no photo
    part, leaves no unreferenced file behind: if before it every stored
    file is the photo of exactly one record and every photo reference
    names a stored file, the same holds after it.  The name drawn for an
    upload is fresh. *)
Theorem accepted_request_keeps_consistent method r req st res st' :
  consistent st -> upload_fresh req st ->
  handle method r req st = Some (res, st') ->
  accepted res \/ photo_part req = None ->
  consistent st'.
Proof.
  intros Hc Hf H Hok. unfold accepted in Hok.
  destruct (handlers_keep_photos_referenced req st Hf) as [_ Hkeep].
  destruct (Hkeep Hc) as (Creg & Cphoto & Cdel & Cput).
  apply handle_answered in H.
  inversion H as [Hr Hg Hout|Hr Hout|out Hr Hm Hpost Hout|Hr Hm Hout|Hr Hm Hout
                 |Hr Hm Hout|Hr Hm Hout|Hr Hm Hout|Hr Hm Hout]; try (by subst).
  - subst out. apply (Creg res st' Hpost).
    destruct (post_register_by_status _ _ _ _ Hpost) as [[E _]|(E1 & E2 & _)];
      [by left|]. destruct Hok as [[?|?]|?]; [done|done|by right].
  - pose proof (get_item_state req st) as E. rewrite Hout in E. by subst.
  - by rewrite Hout in Cput.
  - by rewrite Hout in Cdel.
  - pose proof (get_photo_state req st) as E. rewrite Hout in E. by subst.
  - rewrite Hout in Cphoto. simpl in Cphoto. apply Cphoto.
    destruct (put_photo_by_status req st) as [[E _]|(E1 & E2 & _)];
      rewrite Hout in *; simpl in *; [by left|].
    destruct Hok as [[?|?]|?]; [done|done|by right].
Qed.

(** X14.  [GET /inventory] answers one view per record, in the order of
    the collection.  With unique ids, each listed view is the one
    [GET /inventory/:id] answers for its id from the same protocol and
    host; and every view that [GET /inventory/:id] answers is listed. *)
Theorem list_agrees_with_get req st :
  ids_unique (inventory st) ->
  exists views,
    get_inventory req st = (respond 200 (json_list views), st)
    /\ map dto_id views = map id (inventory st)
    /\ (forall view req', view ∈ views ->
          params_id req' = dto_id view ->
          protocol req' = protocol req -> host req' = host req ->
          get_item req' st = (respond 200 (json_item view), st))
    /\ (forall view req',
          protocol req' = protocol req -> host req' = host req ->
          get_item req' st = (respond 200 (json_item view), st) ->
          view ∈ views).
Proof.
  intros Hu. exists (map (dto req) (inventory st)).
  split; [done|]. split; [|split].
  - rewrite map_map. by apply map_ext.
  - intros view req' Hin Hid Hprot Hhost.
    apply list_elem_of_In, in_map_iff in Hin as (i & <- & Hi%list_elem_of_In).
    destruct (findItem_unique _ _ Hu Hi) as [pos Hfind].
    unfold get_item. simpl in Hid. rewrite Hid, Hfind.
    unfold dto, photoUrl. by rewrite Hprot, Hhost.
  - intros view req' Hprot Hhost. unfold get_item.
    destruct (findItem _ _) as [[pos i]|] eqn:Hfind; [|done].
    intros [= <-]. apply list_elem_of_In, in_map_iff. exists i. split.
    + unfold dto, photoUrl. by rewrite Hprot, Hhost.
    + apply list_elem_of_In. by eapply findItem_elem_of.
Qed.

End Server.

(** ** The theorems at concrete inputs *)

Lemma fresh_name_st_empty req : multer_name req <> "" -> fresh_name req st_empty.
Proof.
  intros Hname. split; [done|]. split; [reflexivity|].
  intros i Hi. inversion Hi.
Qed.

Lemma fresh_name_st_two req :
  multer_name req <> "" -> multer_name req <> "a3f1" -> fresh_name req st_two.
Proof.
  intros Hname Hne. split; [done|]. split.
  - simpl. by apply lookup_singleton_ne.
  - intros i Hi Hr. simpl in Hi.
    apply elem_of_cons in Hi as [->|Hi]; [done|].
    apply list_elem_of_singleton in Hi as ->. simpl in Hr. congruence.
Qed.

Lemma no_orphan_invariant_st_empty : no_orphan_invariant st_empty.
Proof.
  split.
  - intros i name Hi. inversion Hi.
  - intros name [x Hx]. simpl in Hx. by rewrite lookup_empty in Hx.
Qed.

(** A registration with a blank name and a photo part, on the empty
    collection: 400, and the file stays with no record to refer to it. *)
Lemma rejected_upload_breaks_no_orphans_witness :
  photo_part req_blank_with_photo = Some jpeg_head
  /\ fresh_name req_blank_with_photo st_empty
  /\ no_orphan_invariant st_empty
  /\ exists st',
       post_register stringify_flat req_blank_with_photo st_empty =
         Some (respond 400 (json_error "inventory_name is required"), st')
       /\ inventory st' = []
       /\ photos st' !! "beef" = Some jpeg_head
       /\ ~ no_orphan_invariant st'.
Proof.
  assert (Hf : fresh_name req_blank_with_photo st_empty)
    by (by apply fresh_name_st_empty).
  split; [reflexivity|]. split; [exact Hf|].
  split; [exact no_orphan_invariant_st_empty|].
  destruct (rejected_upload_breaks_no_orphans stringify_flat
              req_blank_with_photo st_empty jpeg_head eq_refl Hf) as [Hreg _].
  exact (Hreg "   " eq_refl eq_refl).
Defined.

(** The same request: no record, no snapshot, one more file. *)
Lemma post_register_blank_name_witness :
  body_inventory_name req_blank_with_photo = Some (JStr "   ")
  /\ JS.blank "   " = true
  /\ exists st',
       post_register stringify_flat req_blank_with_photo st_empty =
         Some (respond 400 (json_error "inventory_name is required"), st')
       /\ inventory st' = []
       /\ db_file st' = None
       /\ photos st' = <[ "beef" := jpeg_head ]> ∅
       /\ photos st' <> photos st_empty.
Proof.
  split; [reflexivity|]. split; [reflexivity|].
  destruct (post_register_blank_name stringify_flat req_blank_with_photo
              st_empty "   " eq_refl eq_refl)
    as (st' & Hpost & Hinv & Hdb & _ & Hphotos).
  exists st'. split; [exact Hpost|]. split; [exact Hinv|]. split; [exact Hdb|].
  pose proof (Hphotos jpeg_head eq_refl) as Hp. split; [exact Hp|].
  rewrite Hp. intros Heq.
  apply (f_equal (fun m : gmap string bytes => m !! "beef")) in Heq.
  simpl in Heq. rewrite lookup_insert_eq, lookup_empty in Heq. discriminate.
Defined.

(** Replacing the photo of the second record of [st_two] by PNG bytes. *)
Lemma put_photo_replaces_witness :
  findItem (inventory st_two) (params_id req_replace) = Some (1%nat, gadget)
  /\ fresh_name req_replace st_two
  /\ exists st',
       put_photo stringify_flat req_replace st_two =
         (respond 200 (json_photo_updated "2"
                         (Some "http://localhost:3000/inventory/2/photo")
                         "Photo updated"), st')
       /\ get_photo req_replace st' =
            (respond 200 (send_file "image/jpeg" png_head), st')
       /\ photos st' !! "a3f1" = None.
Proof.
  assert (Hfind : findItem (inventory st_two) (params_id req_replace)
                  = Some (1%nat, gadget)) by reflexivity.
  assert (Hf : fresh_name req_replace st_two)
    by (by apply fresh_name_st_two).
  split; [exact Hfind|]. split; [exact Hf|].
  pose proof (put_photo_replaces stringify_flat req_replace st_two) as H.
  rewrite Hfind in H. destruct H as [_ H].
  destruct (H png_head eq_refl Hf)
    as (st' & Hput & _ & _ & _ & _ & Hget & Hold).
  exists st'. split; [exact Hput|]. split; [exact Hget|].
  apply Hold; [reflexivity | discriminate].
Defined.

(** C3 as stated fails on the code.  With the photo part absent and an id
    that no record carries the answer is 404, not 400; and when a photo is
    replaced, the new bytes are stored while the old file is still there. *)
Lemma put_photo_order_counterexample :
  photo_part (req_id "7") = None
  /\ status (fst (put_photo stringify_flat (req_id "7") st_two)) = 404
  /\ status (fst (put_photo stringify_flat (req_id "7") st_two)) <> 400
  /\ photos (snd (upload_single req_replace st_two)) !! "c0de" = Some png_head
  /\ photos (snd (upload_single req_replace st_two)) !! "a3f1" = Some jpeg_head.
Proof.
  split; [reflexivity|]. split; [reflexivity|]. split; [discriminate|].
  split; reflexivity.
Qed.

(** Deleting the second record of [st_two], twice. *)
Lemma delete_item_removes_record_and_photo_witness :
  ids_unique (inventory st_two)
  /\ exists st',
       delete_item stringify_flat (req_id "2") st_two =
         (respond 200 (json_message "Deleted"), st')
       /\ inventory st' = [widget]
       /\ get_item (req_id "2") st' = (respond 404 (json_error "Not found"), st')
       /\ photos st' !! "a3f1" = None
       /\ delete_item stringify_flat (req_id "2") st' =
            (respond 404 (json_error "Not found"), st').
Proof.
  assert (Hu : ids_unique (inventory st_two)).
  { unfold ids_unique. simpl. apply NoDup_cons. split.
    - intros Hin%list_elem_of_singleton. discriminate.
    - apply NoDup_singleton. }
  split; [exact Hu|].
  pose proof (delete_item_removes_record_and_photo stringify_flat
                (req_id "2") st_two Hu) as H.
  assert (Hfind : findItem (inventory st_two) (params_id (req_id "2"))
                  = Some (1%nat, gadget)) by reflexivity.
  rewrite Hfind in H.
  destruct H as (st' & Hdel & Hinv & _ & Hget & Hphoto & _ & Hagain).
  exists st'. split; [exact Hdel|]. split; [exact Hinv|].
  split; [exact (Hget (req_id "2") eq_refl)|].
  split; [|exact (Hagain (req_id "2") eq_refl)].
  destruct (Hphoto "a3f1" eq_refl) as [Hgone _]; [discriminate | exact Hgone].
Defined.

(** Two registrations on the empty collection get the ids 1 and 2. *)
Lemma genId_max_plus_one_witness :
  ids_numeric (inventory st_empty) []
  /\ Forall valid_name [req_widget; req_gadget]
  /\ genId (inventory st_empty) = Some "1"
  /\ exists ress st' new_ids,
       register_all stringify_flat [req_widget; req_gadget] st_empty = Some (ress, st')
       /\ mapM assigned_id ress = Some new_ids
       /\ mapM JS.Number new_ids = Some [1; 2]
       /\ NoDup new_ids.
Proof.
  assert (Hnum : ids_numeric (inventory st_empty) []) by reflexivity.
  assert (Hvalid : Forall valid_name [req_widget; req_gadget]).
  { repeat constructor; eexists; split; reflexivity. }
  assert (Hle : JS.Math_max0 [] + Z.of_nat (length [req_widget; req_gadget])
                <= JS.MAX_EXACT) by (vm_compute; discriminate).
  split; [exact Hnum|]. split; [exact Hvalid|].
  destruct (genId_max_plus_one stringify_flat req_widget [req_gadget]
              st_empty [] Hnum Hvalid Hle)
    as (_ & Hgen & _ & ress & st' & new_ids & Hrun & Hids & Hnums & Hnd & _).
  split; [exact Hgen|].
  exists ress, st', new_ids.
  split; [exact Hrun|]. split; [exact Hids|]. split; [exact Hnums | exact Hnd].
Defined.

(** Updating only the description of the second record of [st_two], and
    updating nothing. *)
Lemma put_item_partial_patch_witness :
  findItem (inventory st_two) (params_id req_describe) = Some (1%nat, gadget)
  /\ fst (put_item stringify_flat req_describe st_two) =
       respond 200 (json_item
         {| dto_id := "2"; dto_inventory_name := JStr "Gadget";
            dto_description := JStr "x";
            photo_url := Some "http://localhost:3000/inventory/2/photo" |})
  /\ inventory_name (patch req_describe gadget) = JStr "Gadget"
  /\ patch (req_id "2") gadget = gadget.
Proof.
  assert (Hfind : findItem (inventory st_two) (params_id req_describe)
                  = Some (1%nat, gadget)) by reflexivity.
  split; [exact Hfind|].
  destruct (put_item_partial_patch stringify_flat req_describe st_two 1 gadget Hfind)
    as (Hput & Hname & _).
  destruct (put_item_partial_patch stringify_flat (req_id "2") st_two 1 gadget Hfind)
    as (_ & _ & _ & _ & _ & _ & _ & Hnoop).
  split; [by rewrite Hput|]. split; [exact Hname|].
  exact (proj1 (Hnoop eq_refl eq_refl)).
Defined.

(** A snapshot text that does not parse, and no snapshot file. *)
Lemma loadInventory_empty_on_failure_witness :
  parse_empty_array "{ not json" = JS.Throw "SyntaxError"
  /\ loadInventory parse_empty_array (Some "{ not json") = JArr []
  /\ start parse_empty_array (Some "{ not json") ∅ =
       Some {| inventory := []; photos := ∅; db_file := Some "{ not json" |}
  /\ loadInventory parse_empty_array None = JArr [].
Proof.
  assert (Hparse : parse_empty_array "{ not json" = JS.Throw "SyntaxError")
    by reflexivity.
  split; [exact Hparse|].
  destruct (loadInventory_empty_on_failure parse_empty_array
              (Some "{ not json") ∅
              (or_intror (ex_intro _ "{ not json"
                            (ex_intro _ "SyntaxError" (conj eq_refl Hparse)))))
    as (Hload & Hstart & _).
  destruct (loadInventory_empty_on_failure parse_empty_array None ∅
              (or_introl eq_refl))
    as (Habsent & _).
  split; [exact Hload|]. split; [exact Hstart | exact Habsent].
Defined.

(** Updating the name of the second record of [st_two] to the empty
    string. *)
Lemma put_item_accepts_blank_name_witness :
  findItem (inventory st_two) (params_id req_blank_update) = Some (1%nat, gadget)
  /\ body_inventory_name req_blank_update = Some (JStr "")
  /\ JS.blank "" = true
  /\ exists i' st',
       put_item stringify_flat req_blank_update st_two =
         (respond 200 (json_item (dto req_blank_update i')), st')
       /\ inventory_name i' = JStr ""
       /\ findItem (inventory st') "2" = Some (1%nat, i').
Proof.
  assert (Hfind : findItem (inventory st_two) (params_id req_blank_update)
                  = Some (1%nat, gadget)) by reflexivity.
  split; [exact Hfind|]. split; [reflexivity|]. split; [reflexivity|].
  destruct (put_item_accepts_blank_name stringify_flat req_blank_update st_two
              1 gadget "" Hfind eq_refl eq_refl)
    as (i' & st' & Hput & Hname & Hlook & _).
  exists i', st'. split; [exact Hput|]. split; [exact Hname | exact Hlook].
Defined.

(** A photo for id 7, which [st_two] does not have. *)
Lemma put_photo_unknown_id_keeps_upload_witness :
  findItem (inventory st_two) (params_id req_replace_unknown) = None
  /\ photo_part req_replace_unknown = Some png_head
  /\ exists st',
       put_photo stringify_flat req_replace_unknown st_two =
         (respond 404 (json_error "Not found"), st')
       /\ inventory st' = inventory st_two
       /\ db_file st' = db_file st_two
       /\ photos st' !! "c0de" = Some png_head.
Proof.
  assert (Hfind : findItem (inventory st_two) (params_id req_replace_unknown)
                  = None) by reflexivity.
  split; [exact Hfind|]. split; [reflexivity|].
  destruct (put_photo_unknown_id_keeps_upload stringify_flat req_replace_unknown
              st_two png_head Hfind eq_refl)
    as (st' & Hput & Hinv & Hdb & _ & Hfile & _).
  exists st'. split; [exact Hput|]. split; [exact Hinv|].
  split; [exact Hdb | exact Hfile].
Defined.

(** PNG bytes are served as [image/jpeg]. *)
Lemma get_photo_always_jpeg_witness :
  findItem (inventory st_png) (params_id (req_id "2")) = Some (1%nat, gadget)
  /\ photos st_png !! "a3f1" = Some png_head
  /\ get_photo (req_id "2") st_png =
       (respond 200 (send_file "image/jpeg" png_head), st_png).
Proof.
  assert (Hfind : findItem (inventory st_png) (params_id (req_id "2"))
                  = Some (1%nat, gadget)) by reflexivity.
  assert (Hfile : photos st_png !! "a3f1" = Some png_head) by reflexivity.
  split; [exact Hfind|]. split; [exact Hfile|].
  apply (get_photo_always_jpeg (req_id "2") st_png 1 gadget "a3f1" png_head
           Hfind eq_refl); [discriminate | exact Hfile].
Defined.

(** The scenario of two registrations and a deletion: Widget gets id 1,
    Gadget with its photo gets id 2 and a photo URL; after deleting id 1 the
    list holds Gadget only and id 1 is not found. *)
Example scenario_widget_gadget :
  exists ra rb st2 st3,
    register_all stringify_flat [req_widget; req_gadget] st_empty
      = Some ([ra; rb], st2)
    /\ assigned_id ra = Some "1"
    /\ assigned_id rb = Some "2"
    /\ payload rb = json_item
         {| dto_id := "2"; dto_inventory_name := JStr "Gadget";
            dto_description := JStr "with photo";
            photo_url := Some "http://localhost:3000/inventory/2/photo" |}
    /\ delete_item stringify_flat (req_id "1") st2
         = (respond 200 (json_message "Deleted"), st3)
    /\ fst (get_inventory (req_id "") st3)
         = respond 200 (json_list [dto (req_id "") gadget])
    /\ fst (get_item (req_id "1") st3) = respond 404 (json_error "Not found")
    /\ fst (get_photo (req_id "2") st3)
         = respond 200 (send_file "image/jpeg" jpeg_head).
Proof.
  do 4 eexists. split; [reflexivity|]. split; [reflexivity|].
  split; [reflexivity|]. split; [reflexivity|]. split; [reflexivity|].
  split; [reflexivity|]. split; reflexivity.
Qed.

(** ** The further theorems at concrete inputs *)

Lemma fresh_name_intro req st :
  multer_name req <> "" ->
  photos st !! multer_name req = None ->
  Forall (fun i => photoFilename i <> Some (multer_name req)) (inventory st) ->
  fresh_name req st.
Proof.
  intros Hname Hnew Hall. split; [done|]. split; [done|].
  intros i Hi. by eapply Forall_forall in Hall.
Qed.

Lemma ids_wellformed_st_two : ids_wellformed (inventory st_two).
Proof.
  split.
  - unfold ids_unique. simpl. apply NoDup_cons. split.
    + intros Hin%list_elem_of_singleton. discriminate.
    + apply NoDup_singleton.
  - repeat constructor; by eexists.
Qed.

Lemma refs_sound_st_two : refs_sound st_two.
Proof.
  split; [|split].
  - intros i name Hi Hr. simpl in Hi.
    apply elem_of_cons in Hi as [->|Hi]; [done|].
    apply list_elem_of_singleton in Hi as ->. injection Hr as <-.
    by eexists.
  - unfold refs_distinct. simpl. apply NoDup_singleton.
  - intros i Hi Hr. simpl in Hi.
    apply elem_of_cons in Hi as [->|Hi]; [done|].
    apply list_elem_of_singleton in Hi as ->. discriminate.
Qed.


(** A [PUT] on [/register] with a photo part: 405, nothing stored. *)
Lemma guard_405_iff_witness :
  handle stringify_flat "PUT" route_register req_gadget st_empty
    = Some (respond 405 (send_text "Method not allowed"), st_empty)
  /\ photo_part req_gadget = Some jpeg_head
  /\ guard (allowed_methods route_register) "PUT" = false.
Proof.
  assert (H : handle stringify_flat "PUT" route_register req_gadget st_empty
              = Some (respond 405 (send_text "Method not allowed"), st_empty))
    by reflexivity.
  split; [exact H|]. split; [reflexivity|].
  destruct (guard_405_iff stringify_flat _ _ _ _ _ _ H) as [Hiff _].
  exact (proj2 (proj1 Hiff eq_refl)).
Defined.

(** The registration with a blank name and a photo part fails and leaves
    the file. *)
Lemma failed_request_effect_witness :
  exists res st',
    handle stringify_flat "POST" route_register req_blank_with_photo st_empty
      = Some (res, st')
    /\ ~ accepted res
    /\ st' = {| inventory := []; photos := <[ "beef" := jpeg_head ]> ∅;
                db_file := None |}.
Proof.
  set (res := respond 400 (json_error "inventory_name is required")).
  set (st' := {| inventory := []; photos := <[ "beef" := jpeg_head ]> ∅;
                 db_file := None |}).
  assert (H : handle stringify_flat "POST" route_register req_blank_with_photo
                st_empty = Some (res, st')) by reflexivity.
  assert (Hrej : ~ accepted res) by (intros [?|?]; discriminate).
  exists res, st'. split; [exact H|]. split; [exact Hrej|].
  destruct (failed_request_effect stringify_flat _ _ _ _ _ _ H Hrej)
    as [Hsame|(data & _ & _ & Hst)]; [|reflexivity].
  reflexivity.
Defined.

(** After registering Widget the snapshot file holds the collection. *)
Lemma accepted_writes_are_persisted_witness :
  exists res st',
    handle stringify_flat "POST" route_register req_widget st_empty
      = Some (res, st')
    /\ accepted res
    /\ db_file st' = Some (stringify_flat [widget]).
Proof.
  destruct (handle stringify_flat "POST" route_register req_widget st_empty)
    as [[res st']|] eqn:H; [|discriminate H].
  assert (Hshape : res = respond 201 (json_item (dto req_widget widget))
                   /\ inventory st' = [widget]).
  { vm_compute in H. injection H as <- <-. split; reflexivity. }
  destruct Hshape as [-> Hinv].
  exists (respond 201 (json_item (dto req_widget widget))), st'.
  split; [reflexivity|]. split; [by right|].
  destruct (accepted_writes_are_persisted stringify_flat _ _ _ _ _ _ H)
    as [_ Hsync].
  rewrite <- Hinv. apply Hsync; [by right | discriminate].
Defined.



Lemma ids_wellformed_nil : ids_wellformed [].
Proof. split; [apply NoDup_nil_2 | constructor]. Qed.

(** Registering Gadget on the empty collection, then getting id 1. *)
Lemma register_then_get_witness :
  ids_wellformed (inventory st_empty)
  /\ exists res st',
       post_register stringify_flat req_gadget st_empty = Some (res, st')
       /\ status res = 201
       /\ get_item (req_id "1") st' =
            (respond 200 (json_item
               {| dto_id := "1"; dto_inventory_name := JStr "Gadget";
                  dto_description := JStr "with photo";
                  photo_url := Some "http://localhost:3000/inventory/1/photo" |}),
             st').
Proof.
  split; [exact ids_wellformed_nil|].
  destruct (post_register stringify_flat req_gadget st_empty)
    as [[res st']|] eqn:H; [|vm_compute in H; discriminate H].
  assert (Hres : res = respond 201 (json_item
               {| dto_id := "1"; dto_inventory_name := JStr "Gadget";
                  dto_description := JStr "with photo";
                  photo_url := Some "http://localhost:3000/inventory/1/photo" |})).
  { vm_compute in H. injection H as <- <-. reflexivity. }
  assert (Hstatus : status res = 201) by (by rewrite Hres).
  exists res, st'. split; [reflexivity|]. split; [exact Hstatus|].
  destruct (register_then_get stringify_flat req_gadget st_empty res st'
              ids_wellformed_nil H Hstatus) as (i & Hi & _ & _ & Hget).
  rewrite Hres in Hi.
  assert (Hview : dto req_gadget i =
               {| dto_id := "1"; dto_inventory_name := JStr "Gadget";
                  dto_description := JStr "with photo";
                  photo_url := Some "http://localhost:3000/inventory/1/photo" |})
    by (unfold respond in Hi; congruence).
  assert (Hid : id i = "1") by exact (f_equal dto_id Hview).
  rewrite (Hget (req_id "1") (eq_sym Hid) eq_refl eq_refl), Hview. reflexivity.
Defined.

(** The photo registered with Gadget is served for id 1. *)
Lemma register_then_get_photo_witness :
  ids_wellformed (inventory st_empty)
  /\ multer_name req_gadget <> ""
  /\ exists res st',
       post_register stringify_flat req_gadget st_empty = Some (res, st')
       /\ status res = 201
       /\ assigned_id res = Some "1"
       /\ get_photo (req_id "1") st' =
            (respond 200 (send_file "image/jpeg" jpeg_head), st').
Proof.
  assert (Hname : multer_name req_gadget <> "") by discriminate.
  split; [exact ids_wellformed_nil|]. split; [exact Hname|].
  destruct (post_register stringify_flat req_gadget st_empty)
    as [[res st']|] eqn:H; [|vm_compute in H; discriminate H].
  assert (Hres : status res = 201 /\ assigned_id res = Some "1").
  { vm_compute in H. injection H as <- <-. split; reflexivity. }
  destruct Hres as [Hstatus Hk].
  exists res, st'. split; [reflexivity|]. split; [exact Hstatus|].
  split; [exact Hk|].
  exact (register_then_get_photo stringify_flat req_gadget st_empty res st' "1"
           ids_wellformed_nil Hname H Hstatus Hk (req_id "1") eq_refl).
Defined.

(** On [st_two]: register (id 3), delete id 3, register again: id 3. *)
Lemma deleted_last_id_is_reused_witness :
  ids_wellformed (inventory st_two)
  /\ valid_name req_gadget
  /\ exists res1 st1 st2 res2 st3,
       post_register stringify_flat req_widget st_two = Some (res1, st1)
       /\ assigned_id res1 = Some "3"
       /\ delete_item stringify_flat (req_id "3") st1 =
            (respond 200 (json_message "Deleted"), st2)
       /\ post_register stringify_flat req_gadget st2 = Some (res2, st3)
       /\ assigned_id res2 = Some "3".
Proof.
  assert (Hvalid : valid_name req_gadget) by (eexists; split; reflexivity).
  split; [exact ids_wellformed_st_two|]. split; [exact Hvalid|].
  destruct (post_register stringify_flat req_widget st_two)
    as [[res1 st1]|] eqn:H; [|vm_compute in H; discriminate H].
  assert (Hres : status res1 = 201 /\ assigned_id res1 = Some "3").
  { vm_compute in H. injection H as <- <-. split; reflexivity. }
  destruct Hres as [Hstatus Hk].
  destruct (deleted_last_id_is_reused stringify_flat req_widget req_gadget
              (req_id "3") st_two res1 st1 "3"
              ids_wellformed_st_two H Hstatus Hk eq_refl Hvalid)
    as (st2 & res2 & st3 & Hdel & _ & Hreg & _ & Hk2).
  exists res1, st1, st2, res2, st3.
  split; [reflexivity|]. split; [exact Hk|]. split; [exact Hdel|].
  split; [exact Hreg | exact Hk2].
Defined.

(** The name 5 is answered 500 and adds nothing. *)
Lemma register_name_not_a_string_witness :
  (forall s, body_inventory_name req_number_name <> Some (JStr s))
  /\ exists res st',
       post_register stringify_flat req_number_name st_two = Some (res, st')
       /\ status res = 500
       /\ inventory st' = inventory st_two.
Proof.
  assert (Hnot : forall s, body_inventory_name req_number_name <> Some (JStr s))
    by (intros s; discriminate).
  split; [exact Hnot|].
  destruct (register_name_not_a_string stringify_flat req_number_name st_two Hnot)
    as (res & st' & Hpost & Hstatus & Hinv & _).
  exists res, st'. split; [exact Hpost|]. split; [exact Hstatus | exact Hinv].
Defined.

Lemma wellformed_st_two : wellformed st_two.
Proof. split; [exact ids_wellformed_st_two | exact refs_sound_st_two]. Qed.

Lemma gadget_in_st_two : gadget ∈ inventory st_two.
Proof. simpl. apply list_elem_of_further, list_elem_of_here. Qed.

Lemma consistent_st_two : consistent st_two.
Proof.
  destruct refs_sound_st_two as (Hres & Hdist & Htruthy).
  split; [split; [done|]|done].
  intros name [data Hdata]. exists gadget. split; [exact gadget_in_st_two|].
  simpl in Hdata. destruct (decide (name = "a3f1")) as [->|Hne]; [done|].
  rewrite lookup_singleton_ne in Hdata by done. discriminate.
Qed.

(** The view of Gadget in [st_two] carries the URL under which its photo
    is served. *)
Lemma photo_url_iff_photo_served_witness :
  ids_unique (inventory st_two)
  /\ refs_resolve st_two
  /\ gadget ∈ inventory st_two
  /\ photo_url (dto (req_id "") gadget)
       = Some "http://localhost:3000/inventory/2/photo"
  /\ get_photo (req_id "2") st_two =
       (respond 200 (send_file "image/jpeg" jpeg_head), st_two).
Proof.
  destruct ids_wellformed_st_two as [Hu _].
  destruct refs_sound_st_two as [Hres _].
  split; [exact Hu|]. split; [exact Hres|]. split; [exact gadget_in_st_two|].
  split; [reflexivity|].
  destruct (photo_url_iff_photo_served (req_id "") st_two gadget Hu Hres
              gadget_in_st_two (req_id "2") eq_refl) as [_ Hserved].
  destruct (Hserved _ eq_refl) as (_ & name & data & Href & Hdata & Hget).
  injection Href as <-. simpl in Hdata. rewrite lookup_singleton_eq in Hdata.
  injection Hdata as <-. exact Hget.
Defined.

(** Updating Gadget's description keeps its photo reference. *)
Lemma photo_reference_never_cleared_witness :
  wellformed st_two
  /\ upload_fresh req_describe st_two
  /\ exists res st',
       handle stringify_flat "PUT" route_item req_describe st_two = Some (res, st')
       /\ patch req_describe gadget ∈ inventory st'
       /\ JS.truthy_name (photoFilename (patch req_describe gadget)) = true.
Proof.
  split; [exact wellformed_st_two|]. split; [exact I|].
  destruct (handle stringify_flat "PUT" route_item req_describe st_two)
    as [[res st']|] eqn:H; [|vm_compute in H; discriminate H].
  assert (Hin : patch req_describe gadget ∈ inventory st').
  { vm_compute in H. injection H as <- <-.
    apply list_elem_of_further, list_elem_of_here. }
  exists res, st'. split; [reflexivity|]. split; [exact Hin|].
  destruct (photo_reference_never_cleared stringify_flat "PUT" route_item
              req_describe st_two res st' gadget (patch req_describe gadget)
              wellformed_st_two I H gadget_in_st_two eq_refl Hin eq_refl)
    as [Htruthy _]. exact Htruthy.
Defined.

(** Updating Gadget's description, then getting id 2. *)
Lemma put_then_get_witness :
  findItem (inventory st_two) (params_id req_describe) = Some (1%nat, gadget)
  /\ get_item (req_id "2") (snd (put_item stringify_flat req_describe st_two)) =
       (respond 200 (json_item
          {| dto_id := "2"; dto_inventory_name := JStr "Gadget";
             dto_description := JStr "x";
             photo_url := Some "http://localhost:3000/inventory/2/photo" |}),
        snd (put_item stringify_flat req_describe st_two))
  /\ fst (get_photo (req_id "2") (snd (put_item stringify_flat req_describe st_two)))
       = respond 200 (send_file "image/jpeg" jpeg_head).
Proof.
  assert (Hfind : findItem (inventory st_two) (params_id req_describe)
                  = Some (1%nat, gadget)) by reflexivity.
  split; [exact Hfind|].
  destruct (put_then_get stringify_flat req_describe st_two 1 gadget Hfind
              (req_id "2") eq_refl) as (Hget & _ & Hphoto).
  split; [exact (Hget eq_refl eq_refl) | exact Hphoto].
Defined.

(** Deleting Widget leaves the answers for id 2 as they were. *)
Lemma other_records_answer_as_before_witness :
  wellformed st_two
  /\ upload_fresh (req_id "1") st_two
  /\ is_Some (findItem (inventory st_two) "2")
  /\ exists res st',
       handle stringify_flat "DELETE" route_item (req_id "1") st_two = Some (res, st')
       /\ status res = 200
       /\ fst (get_item (req_id "2") st') = fst (get_item (req_id "2") st_two)
       /\ fst (get_photo (req_id "2") st') =
            respond 200 (send_file "image/jpeg" jpeg_head).
Proof.
  assert (Hpresent : is_Some (findItem (inventory st_two) "2")) by (by eexists).
  split; [exact wellformed_st_two|]. split; [exact I|]. split; [exact Hpresent|].
  destruct (handle stringify_flat "DELETE" route_item (req_id "1") st_two)
    as [[res st']|] eqn:H; [|vm_compute in H; discriminate H].
  assert (Hstatus : status res = 200).
  { vm_compute in H. injection H as <- <-. reflexivity. }
  exists res, st'. split; [reflexivity|]. split; [exact Hstatus|].
  assert (Hne : "2" <> params_id (req_id "1")) by discriminate.
  destruct (other_records_answer_as_before stringify_flat "DELETE" route_item
              (req_id "1") st_two res st' "2"
              wellformed_st_two I H Hpresent (or_introl Hne) (req_id "2") eq_refl)
    as [Hitem Hphoto].
  split; [exact Hitem | exact Hphoto].
Defined.

(** Replacing Gadget's photo leaves no file without a record. *)
Lemma accepted_request_keeps_consistent_witness :
  consistent st_two
  /\ upload_fresh req_replace st_two
  /\ exists res st',
       handle stringify_flat "PUT" route_photo req_replace st_two = Some (res, st')
       /\ accepted res
       /\ consistent st'.
Proof.
  assert (Hf : upload_fresh req_replace st_two).
  { apply fresh_name_intro;
      [discriminate | reflexivity | repeat constructor; discriminate]. }
  split; [exact consistent_st_two|]. split; [exact Hf|].
  destruct (handle stringify_flat "PUT" route_photo req_replace st_two)
    as [[res st']|] eqn:H; [|vm_compute in H; discriminate H].
  assert (Hok : accepted res).
  { vm_compute in H. injection H as <- <-. by left. }
  exists res, st'. split; [reflexivity|]. split; [exact Hok|].
  exact (accepted_request_keeps_consistent stringify_flat "PUT" route_photo
           req_replace st_two res st' consistent_st_two Hf H (or_introl Hok)).
Defined.

(** The list of [st_two] has the views of ids 1 and 2, each the answer of
    the [GET] for its id. *)
Lemma list_agrees_with_get_witness :
  ids_unique (inventory st_two)
  /\ exists views,
       get_inventory (req_id "") st_two = (respond 200 (json_list views), st_two)
       /\ map dto_id views = ["1"; "2"]
       /\ get_item (req_id "2") st_two =
            (respond 200 (json_item (dto (req_id "") gadget)), st_two).
Proof.
  destruct ids_wellformed_st_two as [Hu _].
  split; [exact Hu|].
  destruct (list_agrees_with_get (req_id "") st_two Hu)
    as (views & Hlist & Hids & Hget & _).
  exists views. split; [exact Hlist|]. split; [exact Hids|].
  apply (Hget (dto (req_id "") gadget) (req_id "2")); try reflexivity.
  injection Hlist as <-. apply list_elem_of_further, list_elem_of_here.
Defined.
